(** * The tool-calling bridge of the todo chatbot

    A shallow embedding of the chat pipeline of the backend:

    - [src/backend/src/mcp_server/server.py]: [MockAuthService.validate_user]
      and the five operations of [TodoMCPTools];
    - [src/backend/src/services/chat_service.py]: [ChatService];
    - [src/backend/src/services/ai_agent_service.py] and
      [ai_agent_manager.py]: the completion client;
    - [src/backend/src/api/chat.py]: [execute_tool_calls], [chat_endpoint]
      and the history route;
    - [src/backend/src/mcp_server/tools.py]: the tool definitions sent to
      the model.

    Python dictionaries are finite maps ([gmap string pyval]), the database
    session is threaded explicitly through a state-and-exception monad, and
    every query, every commit and every request to the completion endpoint
    is recorded in a trace, so that "no store access" and "no completion
    call" are properties of the final state.  Calls to the logger are not
    part of the model. *)

From stdpp Require Import gmap strings list.
From Stdlib Require Import Ascii ZArith DecimalString DecimalZ DecimalPos.

Local Open Scope string_scope.
Local Open Scope Z_scope.

(** ** Python values and exceptions *)

(** The values a decoded JSON argument can take in this model: [null], a
    string, an integer, a boolean.  Non-integral numbers, arrays and nested
    objects are outside the model.  Strings are sequences of 8-bit
    characters; a character above 127 is never a digit, a blank or a letter
    with a case. *)
Inductive pyval : Type :=
  | VNone
  | VStr (s : string)
  | VInt (z : Z)
  | VBool (b : bool).

#[global] Instance pyval_eq_dec : EqDecision pyval.
Proof. solve_decision. Defined.

(** The exceptions the pipeline can meet.  [DBAPIError] stands for what the
    database driver raises when a commit is refused. *)
Inductive pyexc : Type :=
  | KeyError (key : string)
  | ValueError (msg : string)
  | TypeError (msg : string)
  | AttributeError (msg : string)
  | DBAPIError (msg : string)
  | GenericException (msg : string)
  | HTTPException (status_code : Z) (detail : string).

Inductive result (A : Type) : Type :=
  | Ok (a : A)
  | Raise (e : pyexc).
Arguments Ok {A} a.
Arguments Raise {A} e.

(** [str(e)]: a [KeyError] prints the [repr] of its key (modelled for keys
    without quotes or escapes, as all keys of this program are); the other
    exceptions print their message. *)
Definition str_exc (e : pyexc) : string :=
  match e with
  | KeyError k => "'" +:+ k +:+ "'"
  | ValueError m | TypeError m | AttributeError m | DBAPIError m
  | GenericException m => m
  | HTTPException c d => d
  end.

(** *** [str(int)] and [int(str)] *)

(** [str(z)] for an integer: decimal digits, a leading [-] when negative. *)
Definition str_int (z : Z) : string := NilZero.string_of_int (Z.to_int z).

(** Python's blanks within the ASCII range: tab to carriage return, the
    four separators 28..31, and the space. *)
Definition is_space (c : ascii) : bool :=
  let n := nat_of_ascii c in
  ((9 <=? n) && (n <=? 13) || (28 <=? n) && (n <=? 31) || (n =? 32))%nat.

Fixpoint lstrip (s : string) : string :=
  match s with
  | EmptyString => EmptyString
  | String c s' => if is_space c then lstrip s' else s
  end.

Fixpoint rstrip (s : string) : string :=
  match s with
  | EmptyString => EmptyString
  | String c s' =>
      match rstrip s' with
      | EmptyString => if is_space c then EmptyString else String c EmptyString
      | r => String c r
      end
  end.

Definition strip (s : string) : string := rstrip (lstrip s).

Definition digit_of (c : ascii) : option Z :=
  let n := nat_of_ascii c in
  if ((48 <=? n) && (n <=? 57))%nat then Some (Z.of_nat (n - 48)) else None.

(** The digits of a decimal literal, where single underscores may separate
    digits.  [prev] tells whether the previous character was a digit. *)
Fixpoint parse_digits (acc : Z) (prev : bool) (s : string) : option Z :=
  match s with
  | EmptyString => if prev then Some acc else None
  | String c s' =>
      if Ascii.eqb c "_"%char
      then (if prev then parse_digits acc false s' else None)
      else match digit_of c with
           | Some d => parse_digits (10 * acc + d) true s'
           | None => None
           end
  end.

(** [int(s)] for a string, base 10: blanks around, an optional sign, digits.
    [None] is Python's [ValueError]. *)
Definition int_of_str (s : string) : option Z :=
  match strip s with
  | EmptyString => None
  | String c r =>
      if Ascii.eqb c "+"%char then parse_digits 0 false r
      else if Ascii.eqb c "-"%char then Z.opp <$> parse_digits 0 false r
      else parse_digits 0 false (String c r)
  end.

(** [int(v)]. *)
Definition py_int (v : pyval) : result Z :=
  match v with
  | VInt z => Ok z
  | VBool b => Ok (if b then 1 else 0)
  | VStr s =>
      match int_of_str s with
      | Some z => Ok z
      | None => Raise (ValueError ("invalid literal for int() with base 10: '" +:+ s +:+ "'"))
      end
  | VNone =>
      Raise (TypeError "int() argument must be a string, a bytes-like object or a real number, not 'NoneType'")
  end.

(** What an f-string prints for a value ([format(v, '')], that is [str(v)]). *)
Definition fmt (v : pyval) : string :=
  match v with
  | VNone => "None"
  | VStr s => s
  | VInt z => str_int z
  | VBool b => if b then "True" else "False"
  end.

(** Truthiness, and the value of [a or b]. *)
Definition truthy (v : pyval) : bool :=
  match v with
  | VNone => false
  | VStr s => negb (String.eqb s "")
  | VInt z => negb (Z.eqb z 0)
  | VBool b => b
  end.

Definition py_or (a b : pyval) : pyval := if truthy a then a else b.

Definition is_not_none (v : pyval) : bool :=
  match v with VNone => false | _ => true end.

(** [sep.join(parts)]. *)
Fixpoint join (sep : string) (parts : list string) : string :=
  match parts with
  | [] => ""
  | [p] => p
  | p :: rest => p +:+ sep +:+ join sep rest
  end.

(** Dictionaries: [d[k]], [d.get(k)], [d.get(k, dflt)]. *)
Definition getitem (d : gmap string pyval) (k : string) : result pyval :=
  match d !! k with
  | Some v => Ok v
  | None => Raise (KeyError k)
  end.

Definition get (d : gmap string pyval) (k : string) : pyval :=
  default VNone (d !! k).

Definition get_default (d : gmap string pyval) (k : string) (dflt : pyval) : pyval :=
  default dflt (d !! k).

(** ** The database

    Rows keep the columns the pipeline reads or writes; the timestamps of a
    task and its due date are never touched by it and are left out. *)

Module Task.
Record t : Type := mk {
  id : Z;
  user_id : Z;
  title : string;
  description : option string;
  completed : bool
}.
End Task.

Module Conversation.
Record t : Type := mk {
  id : Z;
  user_id : Z;
  created_at : Z;
  updated_at : Z
}.
End Conversation.

Module Message.
Record t : Type := mk {
  id : Z;
  user_id : Z;
  conversation_id : Z;
  role : string;
  content : string;
  created_at : Z
}.
End Message.

#[global] Instance task_eq_dec : EqDecision Task.t.
Proof. solve_decision. Defined.

(** One turn of a conversation as the completion API receives it:
    [{"role": r, "content": c}]. *)
Definition turn : Type := (string * string)%type.

(** What leaves the process: a query or a commit on one of the three
    tables, or a request to the completion API.  A select carries the owner
    its filter names; a write carries the row written and stands for the
    commit and for the refresh of that row. *)
Inductive event : Type :=
  | TaskSelect (owner : Z)
  | TaskInsert (row : Task.t)
  | TaskUpdate (row : Task.t)
  | TaskDelete (row : Task.t)
  | ConversationSelect (owner : Z)
  | ConversationInsert (row : Conversation.t)
  | ConversationTouch (conversation_id : Z)
  | MessageSelect (conversation_id owner : Z)
  | MessageInsert (row : Message.t)
  | Completion (messages : list turn).

(** The tables (rows in the order the database returns them, each with the
    next value of its id sequence), a logical clock for [datetime.utcnow()],
    and the trace. *)
Record World : Type := mkWorld {
  tasks : list Task.t;
  tasks_seq : Z;
  conversations : list Conversation.t;
  conversations_seq : Z;
  messages : list Message.t;
  messages_seq : Z;
  clock : Z;
  trace : list event
}.

Definition set_tasks (ts : list Task.t) (sq : Z) (w : World) : World :=
  mkWorld ts sq (conversations w) (conversations_seq w)
          (messages w) (messages_seq w) (clock w) (trace w).

Definition set_conversations (cs : list Conversation.t) (sq : Z) (w : World) : World :=
  mkWorld (tasks w) (tasks_seq w) cs sq
          (messages w) (messages_seq w) (clock w) (trace w).

Definition set_messages (ms : list Message.t) (sq : Z) (w : World) : World :=
  mkWorld (tasks w) (tasks_seq w) (conversations w) (conversations_seq w)
          ms sq (clock w) (trace w).

Definition set_clock (c : Z) (w : World) : World :=
  mkWorld (tasks w) (tasks_seq w) (conversations w) (conversations_seq w)
          (messages w) (messages_seq w) c (trace w).

Definition record (e : event) (w : World) : World :=
  mkWorld (tasks w) (tasks_seq w) (conversations w) (conversations_seq w)
          (messages w) (messages_seq w) (clock w) (trace w ++ [e]).

(** ** State and exceptions *)

Definition M (A : Type) : Type := World → result A * World.

#[global] Instance M_ret : MRet M := λ A a w, (Ok a, w).

#[global] Instance M_bind : MBind M := λ A B f m w,
  match m w with
  | (Ok a, w') => f a w'
  | (Raise e, w') => (Raise e, w')
  end.

Definition raise {A : Type} (e : pyexc) : M A := λ w, (Raise e, w).

(** A computation that does not touch the world. *)
Definition pure {A : Type} (r : result A) : M A := λ w, (r, w).

(** [try: body except Exception as e: handler(e)]. *)
Definition try_except {A : Type} (body : M A) (handler : pyexc → M A) : M A :=
  λ w, match body w with
       | (Ok a, w') => (Ok a, w')
       | (Raise e, w') => handler e w'
       end.

(** [try: body except ValueError: raise ValueError(msg)]: the other
    exceptions pass through. *)
Definition reraise_ValueError {A : Type} (body : result A) (msg : string) : result A :=
  match body with
  | Raise (ValueError _) => Raise (ValueError msg)
  | r => r
  end.

Definition log_event (e : event) : M unit := λ w, (Ok tt, record e w).

(** ** Pattern matching of the database ([ILIKE], PostgreSQL)

    [%] stands for any sequence, [_] for any one character, and a backslash
    makes the next character literal.  PostgreSQL refuses a pattern that
    ends in a lone backslash; the patterns built below end in [%], so the
    case does not arise, and the tokenizer reads such a backslash as
    itself.  Letters compare without case within ASCII. *)

Inductive like_token : Type :=
  | AnySeq
  | AnyOne
  | Lit (c : ascii).

Fixpoint like_tokens (p : string) : list like_token :=
  match p with
  | EmptyString => []
  | String c p' =>
      if Ascii.eqb c "\"%char then
        match p' with
        | EmptyString => [Lit c]
        | String d p'' => Lit d :: like_tokens p''
        end
      else if Ascii.eqb c "%"%char then AnySeq :: like_tokens p'
      else if Ascii.eqb c "_"%char then AnyOne :: like_tokens p'
      else Lit c :: like_tokens p'
  end.

Definition lower (c : ascii) : ascii :=
  let n := nat_of_ascii c in
  if ((65 <=? n) && (n <=? 90))%nat then ascii_of_nat (n + 32) else c.

Fixpoint like_match (p : list like_token) (s : string) : bool :=
  match p with
  | [] => match s with EmptyString => true | _ => false end
  | AnySeq :: p' =>
      (fix skip (s : string) : bool :=
         like_match p' s ||
         match s with
         | EmptyString => false
         | String _ s' => skip s'
         end) s
  | AnyOne :: p' =>
      match s with
      | EmptyString => false
      | String _ s' => like_match p' s'
      end
  | Lit c :: p' =>
      match s with
      | EmptyString => false
      | String d s' => Ascii.eqb (lower c) (lower d) && like_match p' s'
      end
  end.

(** [column.ilike(pattern)]. *)
Definition ilike (pattern : string) (value : string) : bool :=
  like_match (like_tokens pattern) value.

(** [s.replace(c, by)] for a one-character [c]. *)
Fixpoint replace (c : ascii) (by_ : string) (s : string) : string :=
  match s with
  | EmptyString => EmptyString
  | String d s' =>
      if Ascii.eqb d c then by_ +:+ replace c by_ s'
      else String d (replace c by_ s')
  end.

(** ** The session's statements on the task table *)

(** [query(Task).filter(Task.id == task_id, Task.user_id == owner).first()] *)
Definition select_task_by_id (task_id owner : Z) : M (option Task.t) :=
  λ w, (Ok (List.find (λ t, Z.eqb (Task.id t) task_id && Z.eqb (Task.user_id t) owner)
                       (tasks w)),
        record (TaskSelect owner) w).

(** [query(Task).filter(Task.title.ilike(pattern), Task.user_id == owner).first()] *)
Definition select_task_by_title (pattern : string) (owner : Z) : M (option Task.t) :=
  λ w, (Ok (List.find (λ t, ilike pattern (Task.title t) && Z.eqb (Task.user_id t) owner)
                       (tasks w)),
        record (TaskSelect owner) w).

(** [query(Task).filter(Task.user_id == owner)], narrowed by
    [Task.completed == flag] when a flag is given, then [.all()]. *)
Definition select_tasks (owner : Z) (flag : option bool) : M (list Task.t) :=
  λ w, (Ok (List.filter
              (λ t, Z.eqb (Task.user_id t) owner &&
                    match flag with
                    | Some b => Bool.eqb (Task.completed t) b
                    | None => true
                    end)
              (tasks w)),
        record (TaskSelect owner) w).

(** The columns accept text; [description] also accepts NULL.  The driver
    refuses anything else when the statement is sent. *)
Definition title_column (v : pyval) : result string :=
  match v with
  | VStr s => Ok s
  | _ => Raise (DBAPIError "tasks.title: value refused by the database")
  end.

Definition description_column (v : pyval) : result (option string) :=
  match v with
  | VStr s => Ok (Some s)
  | VNone => Ok None
  | _ => Raise (DBAPIError "tasks.description: value refused by the database")
  end.

(** [add(Task(...)); commit(); refresh()]: the row gets the next id. *)
Definition insert_task (owner : Z) (title description : pyval) (completed : bool)
  : M Task.t :=
  λ w, match title_column title, description_column description with
       | Ok t, Ok d =>
           let row := Task.mk (tasks_seq w) owner t d completed in
           (Ok row, record (TaskInsert row) (set_tasks (tasks w ++ [row]) (tasks_seq w + 1) w))
       | Raise e, _ | _, Raise e => (Raise e, w)
       end.

(** [commit()] after attributes of a loaded row were assigned, an update by
    primary key, with the [refresh] of the row that follows it. *)
Definition update_row (row : Task.t) : M unit :=
  λ w, (Ok tt,
        record (TaskUpdate row)
          (set_tasks (List.map (λ t, if Z.eqb (Task.id t) (Task.id row) then row else t) (tasks w))
                     (tasks_seq w) w)).

(** [delete(row); commit()]: a delete by primary key. *)
Definition delete_row (row : Task.t) : M unit :=
  λ w, (Ok tt,
        record (TaskDelete row)
          (set_tasks (List.filter (λ t, negb (Z.eqb (Task.id t) (Task.id row))) (tasks w))
                     (tasks_seq w) w)).

(** ** [mcp_server/server.py] *)

#[global] Instance result_ret : MRet result := λ A a, Ok a.

#[global] Instance result_bind : MBind result := λ A B f r,
  match r with
  | Ok a => f a
  | Raise e => Raise e
  end.

(** [MockAuthService.validate_user]: [int(user_id) > 0], and [False] when
    [int] raises [ValueError]. *)
Definition validate_user (user_id : pyval) : result bool :=
  match py_int user_id with
  | Ok user_id_int => Ok (Z.ltb 0 user_id_int)
  | Raise (ValueError _) => Ok false
  | Raise e => Raise e
  end.

Definition of_option (o : option string) : pyval :=
  match o with
  | Some s => VStr s
  | None => VNone
  end.

(** [TodoMCPTools.add_task] *)
Definition add_task (params : gmap string pyval) : M (gmap string pyval) :=
  user_id ← pure (getitem params "user_id");
  title ← pure (getitem params "title");
  let description := get_default params "description" (VStr "") in
  valid ← pure (validate_user user_id);
  if negb valid then raise (ValueError ("Invalid user: " +:+ fmt user_id)) else
  user_id_int ← pure (reraise_ValueError (py_int user_id)
                        ("Invalid user_id format: " +:+ fmt user_id));
  new_task ← insert_task user_id_int title description false;
  mret (list_to_map
          [("task_id", VInt (Task.id new_task));
           ("status", VStr "created");
           ("title", VStr (Task.title new_task));
           ("description", of_option (Task.description new_task));
           ("completed", VBool (Task.completed new_task))]).

Definition task_summary (task : Task.t) : gmap string pyval :=
  list_to_map
    [("id", VInt (Task.id task));
     ("title", VStr (Task.title task));
     ("description", of_option (Task.description task));
     ("completed", VBool (Task.completed task));
     ("user_id", VInt (Task.user_id task))].

(** [TodoMCPTools.list_tasks] *)
Definition list_tasks (params : gmap string pyval) : M (list (gmap string pyval)) :=
  user_id ← pure (getitem params "user_id");
  let status_filter := get_default params "status" (VStr "all") in
  valid ← pure (validate_user user_id);
  if negb valid then raise (ValueError ("Invalid user: " +:+ fmt user_id)) else
  user_id_int ← pure (reraise_ValueError (py_int user_id)
                        ("Invalid user_id format: " +:+ fmt user_id));
  let flag :=
    if bool_decide (status_filter = VStr "pending") then Some false
    else if bool_decide (status_filter = VStr "completed") then Some true
    else None in
  tasks ← select_tasks user_id_int flag;
  mret (List.map task_summary tasks).

Definition with_completed (task : Task.t) (b : bool) : Task.t :=
  Task.mk (Task.id task) (Task.user_id task) (Task.title task) (Task.description task) b.

(** [TodoMCPTools.complete_task] *)
Definition complete_task (params : gmap string pyval) : M (gmap string pyval) :=
  user_id ← pure (getitem params "user_id");
  task_id ← pure (getitem params "task_id");
  valid ← pure (validate_user user_id);
  if negb valid then raise (ValueError ("Invalid user: " +:+ fmt user_id)) else
  ids ← pure (reraise_ValueError
                (user_id_int ← py_int user_id;
                 task_id_int ← py_int task_id;
                 mret (user_id_int, task_id_int))
                "Invalid user_id or task_id format");
  found ← select_task_by_id ids.2 ids.1;
  match found with
  | None =>
      raise (ValueError ("Task " +:+ fmt task_id +:+ " not found for user " +:+ fmt user_id))
  | Some task =>
      let task := with_completed task true in
      _ ← update_row task;
      mret (list_to_map
              [("task_id", VInt (Task.id task));
               ("status", VStr "completed");
               ("title", VStr (Task.title task))])
  end.

(** [task_title.replace('%', '\\%').replace('_', '\\_')]; only a string
    has the method. *)
Definition escape_wildcards (s : string) : string :=
  replace "_"%char "\_" (replace "%"%char "\%" s).

Definition escaped (task_title : pyval) : result string :=
  match task_title with
  | VStr s => Ok (escape_wildcards s)
  | VInt _ => Raise (AttributeError "'int' object has no attribute 'replace'")
  | VBool _ => Raise (AttributeError "'bool' object has no attribute 'replace'")
  | VNone => Raise (AttributeError "'NoneType' object has no attribute 'replace'")
  end.

(** [TodoMCPTools.delete_task] *)
Definition delete_task (params : gmap string pyval) : M (gmap string pyval) :=
  user_id ← pure (getitem params "user_id");
  let task_id := get params "task_id" in
  let task_title :=
    py_or (get params "title")
      (py_or (get params "task_name")
         (py_or (get params "name") (get params "task_title"))) in
  valid ← pure (validate_user user_id);
  if negb valid then raise (ValueError ("Invalid user: " +:+ fmt user_id)) else
  user_id_int ← pure (reraise_ValueError (py_int user_id) "Invalid user_id format");
  found ←
    (if is_not_none task_id then
       task_id_int ← pure (reraise_ValueError (py_int task_id) "Invalid task_id format");
       select_task_by_id task_id_int user_id_int
     else if is_not_none task_title then
       escaped_title ← pure (escaped task_title);
       select_task_by_title ("%" +:+ escaped_title +:+ "%") user_id_int
     else
       raise (ValueError "Either task_id or title must be provided for deletion"));
  match found with
  | None =>
      if is_not_none task_id then
        raise (ValueError ("Task " +:+ fmt task_id +:+ " not found for user " +:+ fmt user_id))
      else
        raise (ValueError ("Task with title '" +:+ fmt task_title +:+
                           "' not found for user " +:+ fmt user_id))
  | Some task =>
      _ ← delete_row task;
      mret (list_to_map
              [("task_id", VInt (Task.id task));
               ("title", VStr (Task.title task));
               ("status", VStr "deleted")])
  end.

(** The assignments [task.title = new_title] and
    [task.description = new_description], each made when its value is not
    [None]; the database checks the values at the commit. *)
Definition assign (task : Task.t) (new_title new_description : pyval) : result Task.t :=
  title ← (if is_not_none new_title then title_column new_title
           else Ok (Task.title task));
  description ← (if is_not_none new_description then description_column new_description
                 else Ok (Task.description task));
  mret (Task.mk (Task.id task) (Task.user_id task) title description (Task.completed task)).

(** [TodoMCPTools.update_task] *)
Definition update_task (params : gmap string pyval) : M (gmap string pyval) :=
  user_id ← pure (getitem params "user_id");
  let task_id := get params "task_id" in
  let task_title :=
    py_or (get params "title_to_find")
      (py_or (get params "task_name")
         (py_or (get params "name")
            (py_or (get params "task_title") (get params "title")))) in
  let new_title := py_or (get params "new_title") (get params "title") in
  let new_description := py_or (get params "new_description") (get params "description") in
  valid ← pure (validate_user user_id);
  if negb valid then raise (ValueError ("Invalid user: " +:+ fmt user_id)) else
  user_id_int ← pure (reraise_ValueError (py_int user_id) "Invalid user_id format");
  found ←
    (if is_not_none task_id then
       task_id_int ← pure (reraise_ValueError (py_int task_id) "Invalid task_id format");
       select_task_by_id task_id_int user_id_int
     else if is_not_none task_title then
       select_task_by_title ("%" +:+ fmt task_title +:+ "%") user_id_int
     else
       raise (ValueError "Either task_id or title_to_find must be provided for update"));
  match found with
  | None =>
      if is_not_none task_id then
        raise (ValueError ("Task " +:+ fmt task_id +:+ " not found for user " +:+ fmt user_id))
      else
        raise (ValueError ("Task with title '" +:+ fmt task_title +:+
                           "' not found for user " +:+ fmt user_id))
  | Some task =>
      task ← pure (assign task new_title new_description);
      _ ← update_row task;
      mret (list_to_map
              [("task_id", VInt (Task.id task));
               ("status", VStr "updated");
               ("title", VStr (Task.title task));
               ("description", of_option (Task.description task))])
  end.

(** ** [services/chat_service.py]

    User ids are integers here, so the guest branch ([-1] for an id that is
    not an [int]) is never taken. *)

(** [datetime.utcnow()]: the clock only moves forward. *)
Definition utcnow : M Z :=
  λ w, (Ok (clock w), set_clock (clock w + 1) w).

(** [add(row); commit(); refresh(row)] on the conversation table. *)
Definition insert_conversation (user_id created_at updated_at : Z) : M Conversation.t :=
  λ w, let conversation :=
         Conversation.mk (conversations_seq w) user_id created_at updated_at in
       (Ok conversation,
        record (ConversationInsert conversation)
          (set_conversations (conversations w ++ [conversation])
                             (conversations_seq w + 1) w)).

(** [ChatService.create_conversation] *)
Definition create_conversation (user_id : Z) : M Conversation.t :=
  created_at ← utcnow;
  updated_at ← utcnow;
  insert_conversation user_id created_at updated_at.

(** [ChatService.get_conversation] *)
Definition get_conversation (conversation_id user_id : Z) : M (option Conversation.t) :=
  λ w, (Ok (List.find (λ c, Z.eqb (Conversation.id c) conversation_id &&
                            Z.eqb (Conversation.user_id c) user_id)
                       (conversations w)),
        record (ConversationSelect user_id) w).

(** [ChatService.get_or_create_conversation]; [None] and [0] are falsy. *)
Definition get_or_create_conversation (conversation_id : option Z) (user_id : Z)
  : M Conversation.t :=
  match conversation_id with
  | Some cid =>
      if Z.eqb cid 0 then create_conversation user_id
      else
        conversation ← get_conversation cid user_id;
        match conversation with
        | Some c => mret c
        | None => create_conversation user_id
        end
  | None => create_conversation user_id
  end.

(** [add(row); commit(); refresh(row)] on the message table. *)
Definition insert_message (conversation_id user_id : Z) (role content : string)
    (created_at : Z) : M Message.t :=
  λ w, let message :=
         Message.mk (messages_seq w) user_id conversation_id role content created_at in
       (Ok message,
        record (MessageInsert message)
          (set_messages (messages w ++ [message]) (messages_seq w + 1) w)).

(** [ChatService.add_message] *)
Definition add_message (conversation_id user_id : Z) (role content : string)
  : M Message.t :=
  created_at ← utcnow;
  insert_message conversation_id user_id role content created_at.

(** [ORDER BY created_at ASC], keeping the stored order among equal stamps. *)
Fixpoint insert_by_created_at (m : Message.t) (l : list Message.t) : list Message.t :=
  match l with
  | [] => [m]
  | x :: l' =>
      if Z.leb (Message.created_at m) (Message.created_at x) then m :: l
      else x :: insert_by_created_at m l'
  end.

Definition order_by_created_at (l : list Message.t) : list Message.t :=
  List.fold_right insert_by_created_at [] l.

(** [ChatService.get_conversation_history]:
    [select(Message).where(...).order_by(Message.created_at.asc()).limit(limit)] *)
Definition get_conversation_history (conversation_id user_id : Z) (limit : nat)
  : M (list Message.t) :=
  λ w, (Ok (List.firstn limit
              (order_by_created_at
                 (List.filter (λ m, Z.eqb (Message.conversation_id m) conversation_id &&
                                    Z.eqb (Message.user_id m) user_id)
                              (messages w)))),
        record (MessageSelect conversation_id user_id) w).

(** [ChatService.update_conversation_timestamp]: [session.get] by primary
    key, then [updated_at = utcnow()] when the row exists. *)
Definition update_conversation_timestamp (conversation_id : Z) : M unit :=
  λ w, match List.find (λ c, Z.eqb (Conversation.id c) conversation_id) (conversations w) with
       | Some _ =>
           let now := clock w in
           (Ok tt,
            record (ConversationTouch conversation_id)
              (set_clock (now + 1)
                 (set_conversations
                    (List.map (λ c, if Z.eqb (Conversation.id c) conversation_id
                                    then Conversation.mk (Conversation.id c) (Conversation.user_id c)
                                           (Conversation.created_at c) now
                                    else c)
                              (conversations w))
                    (conversations_seq w) w)))
       | None => (Ok tt, record (ConversationTouch conversation_id) w)
       end.

(** ** [services/ai_agent_service.py] and [services/ai_agent_manager.py] *)

(** A tool call as the API returns it; [raw_arguments] is the outcome of
    [json.loads] on its argument text: an exception, or a JSON object. *)
Record raw_tool_call : Type := {
  raw_id : string;
  raw_name : string;
  raw_arguments : result (gmap string pyval)
}.

(** A tool call as the dispatcher receives it:
    [{"id": .., "function": {"name": .., "arguments": ..}}]. *)
Record tool_call : Type := {
  call_id : string;
  function_name : string;
  arguments : gmap string pyval
}.

(** The hosted completion endpoint: it fails (transport, status, timeout)
    or returns a first choice with optional content and tool calls. *)
Inductive api_reply : Type :=
  | ApiFailure (e : pyexc)
  | ApiChoice (content : option string) (tool_calls : list raw_tool_call).

(** The dictionary [{"type": .., "content": .., "tool_calls": ..}] by its
    ["type"]. *)
Inductive ai_result : Type :=
  | AiToolCalls (tool_calls : list tool_call) (content : string)
  | AiMessage (content : string)
  | AiError (content : string).

Fixpoint decode_tool_calls (calls : list raw_tool_call) : result (list tool_call) :=
  match calls with
  | [] => Ok []
  | c :: rest =>
      args ← raw_arguments c;
      rest' ← decode_tool_calls rest;
      mret ({| call_id := raw_id c; function_name := raw_name c; arguments := args |} :: rest')
  end.

(** [AIAgentService._process_response] *)
Definition _process_response (content : option string) (tool_calls : list raw_tool_call)
  : result ai_result :=
  match tool_calls with
  | _ :: _ =>
      let content := default "" content in
      calls ← decode_tool_calls tool_calls;
      mret (AiToolCalls calls content)
  | [] => Ok (AiMessage (default "" content))
  end.

Section Completion.

(** The endpoint behind [client.chat.completions.create]. *)
Variable api : list turn → api_reply.

(** [AIAgentService.run_conversation] *)
Definition run_conversation (messages : list turn) : M ai_result :=
  _ ← log_event (Completion messages);
  pure (match (match api messages with
               | ApiFailure e => Raise e
               | ApiChoice content tool_calls => _process_response content tool_calls
               end) with
        | Ok r => Ok r
        | Raise e => Raise (GenericException ("AI agent error: " +:+ str_exc e))
        end).

(** [AIAgentManager.process_message] *)
Definition process_message (user_id : string) (message : string)
    (conversation_history : list turn) : M ai_result :=
  try_except
    (let messages := (conversation_history ++ [("user", message)])%list in
     run_conversation messages)
    (λ e, mret (AiError
       "Sorry, I encountered an error processing your request. Please try again.")).

End Completion.

(** ** [api/chat.py] *)

Module User.
Record t : Type := mk { id : Z; email : string }.
End User.

Record ChatRequest : Type := {
  message : string;
  conversation_id : option Z
}.

Record ChatResponse : Type := {
  response_conversation_id : Z;
  response : string;
  response_tool_calls : list tool_call
}.

(** The branch of [execute_tool_calls] on the function name, with the
    summary line appended to [results] on success. *)
Definition run_tool (function_name : string) (arguments : gmap string pyval) : M string :=
  if String.eqb function_name "add_task" then
    result ← add_task arguments;
    mret ("Added task: " +:+ fmt (get_default result "title" (VStr "Untitled")))
  else if String.eqb function_name "list_tasks" then
    result ← list_tasks arguments;
    mret ("Found " +:+ str_int (Z.of_nat (length result)) +:+ " tasks")
  else if String.eqb function_name "complete_task" then
    result ← complete_task arguments;
    mret ("Completed task: " +:+ fmt (get_default result "title" (VStr "Untitled")))
  else if String.eqb function_name "delete_task" then
    result ← delete_task arguments;
    mret ("Deleted task ID: " +:+ fmt (get result "task_id"))
  else if String.eqb function_name "update_task" then
    result ← update_task arguments;
    mret ("Updated task: " +:+ fmt (get_default result "title" (VStr "Untitled")))
  else
    mret ("Unknown function: " +:+ function_name).

(** One iteration of the loop: the identity override, the call, and the
    line for the [results] list. *)
Definition execute_tool_call (tool_call : tool_call) (current_user : User.t) : M string :=
  let function_name := function_name tool_call in
  let arguments :=
    <["user_id" := VStr (str_int (User.id current_user))]> (arguments tool_call) in
  try_except (run_tool function_name arguments)
    (λ e, mret ("Error executing " +:+ function_name +:+ ": " +:+ str_exc e)).

(** The [results] list when the loop ends. *)
Fixpoint tool_call_results (tool_calls : list tool_call) (current_user : User.t)
  : M (list string) :=
  match tool_calls with
  | [] => mret []
  | tool_call :: rest =>
      line ← execute_tool_call tool_call current_user;
      lines ← tool_call_results rest current_user;
      mret (line :: lines)
  end.

(** [execute_tool_calls] *)
Definition execute_tool_calls (tool_calls : list tool_call) (current_user : User.t)
  : M string :=
  results ← tool_call_results tool_calls current_user;
  mret (join "; " results).

Section Endpoint.

Variable api : list turn → api_reply.

(** [chat_endpoint] *)
Definition chat_endpoint (user_id : string) (chat_request : ChatRequest)
    (current_user : User.t) : M ChatResponse :=
  if negb (String.eqb (str_int (User.id current_user)) user_id) then
    raise (HTTPException 403 "Access denied")
  else
    try_except
      (conversation ← get_or_create_conversation
                        (conversation_id chat_request) (User.id current_user);
       user_message ← add_message (Conversation.id conversation) (User.id current_user)
                        "user" (message chat_request);
       history_messages ← get_conversation_history (Conversation.id conversation)
                            (User.id current_user) 50;
       let formatted_history :=
         List.map (λ msg, (Message.role msg, Message.content msg)) history_messages in
       ai_result ← process_message api (str_int (User.id current_user))
                     (message chat_request) (List.removelast formatted_history);
       response_content ←
         match ai_result with
         | AiToolCalls tool_calls _ =>
             tool_execution_result ← execute_tool_calls tool_calls current_user;
             mret ("I've processed your request. " +:+ tool_execution_result)
         | AiMessage content | AiError content => mret content
         end;
       ai_message ← add_message (Conversation.id conversation) (User.id current_user)
                      "assistant" response_content;
       _ ← update_conversation_timestamp (Conversation.id conversation);
       mret {| response_conversation_id := Conversation.id conversation;
               response := response_content;
               response_tool_calls := [] |})
      (λ e, raise (HTTPException 500 "An error occurred while processing your request")).

End Endpoint.

(** The body of [ChatHistoryResponse]; [MessageRead] has the columns of
    the message row. *)
Module ChatHistoryResponse.
Record t : Type := mk {
  messages : list Message.t;
  conversation_id : Z
}.
End ChatHistoryResponse.

(** The route [GET /{user_id}/conversations/{conversation_id}/history];
    the module keeps its name apart from the service method it calls. *)
Module ChatApi.
Definition get_conversation_history (user_id : string) (conversation_id : Z)
    (current_user : User.t) : M ChatHistoryResponse.t :=
  if negb (String.eqb (str_int (User.id current_user)) user_id) then
    raise (HTTPException 403 "Access denied")
  else
    try_except
      (conversation ← get_conversation conversation_id (User.id current_user);
       match conversation with
       | None => raise (HTTPException 404 "Conversation not found")
       | Some _ =>
           messages ← get_conversation_history conversation_id (User.id current_user) 50;
           mret (ChatHistoryResponse.mk messages conversation_id)
       end)
      (λ e, match e with
            | HTTPException _ _ => raise e
            | _ => raise (HTTPException 500
                            "An error occurred while retrieving the conversation history")
            end).
End ChatApi.

(** ** [mcp_server/tools.py] *)

(** One entry of ["properties"]: the name of the parameter with its
    ["type"], its ["description"] and, when the domain is closed, its
    ["enum"]. *)
Record param_schema : Type := {
  param_name : string;
  param_type : string;
  param_description : string;
  param_enum : option (list string)
}.

(** One tool definition: the fields of ["function"], with the
    ["properties"] and the ["required"] list of its ["parameters"]. *)
Record tool_schema : Type := {
  tool_name : string;
  tool_description : string;
  tool_properties : list param_schema;
  tool_required : list string
}.

(** [get_mcp_tools_definitions] *)
Definition get_mcp_tools_definitions : list tool_schema :=
  [ {| tool_name := "add_task";
       tool_description := "Create a new task";
       tool_properties :=
         [ {| param_name := "user_id"; param_type := "string";
              param_description := "The ID of the user creating the task";
              param_enum := None |};
           {| param_name := "title"; param_type := "string";
              param_description := "The title of the task";
              param_enum := None |};
           {| param_name := "description"; param_type := "string";
              param_description := "The description of the task (optional)";
              param_enum := None |} ];
       tool_required := ["user_id"; "title"] |};
    {| tool_name := "list_tasks";
       tool_description := "Retrieve tasks from the list";
       tool_properties :=
         [ {| param_name := "user_id"; param_type := "string";
              param_description := "The ID of the user whose tasks to retrieve";
              param_enum := None |};
           {| param_name := "status"; param_type := "string";
              param_description := "Filter tasks by status (optional, defaults to 'all')";
              param_enum := Some ["all"; "pending"; "completed"] |} ];
       tool_required := ["user_id"] |};
    {| tool_name := "complete_task";
       tool_description := "Mark a task as complete";
       tool_properties :=
         [ {| param_name := "user_id"; param_type := "string";
              param_description := "The ID of the user";
              param_enum := None |};
           {| param_name := "task_id"; param_type := "integer";
              param_description := "The ID of the task to mark as complete";
              param_enum := None |} ];
       tool_required := ["user_id"; "task_id"] |};
    {| tool_name := "delete_task";
       tool_description := "Remove a task from the list";
       tool_properties :=
         [ {| param_name := "user_id"; param_type := "string";
              param_description := "The ID of the user";
              param_enum := None |};
           {| param_name := "task_id"; param_type := "integer";
              param_description := "The ID of the task to delete (optional if title is provided)";
              param_enum := None |};
           {| param_name := "title"; param_type := "string";
              param_description := "The title of the task to delete (optional if task_id is provided)";
              param_enum := None |} ];
       tool_required := ["user_id"] |};
    {| tool_name := "update_task";
       tool_description := "Modify task title or description";
       tool_properties :=
         [ {| param_name := "user_id"; param_type := "string";
              param_description := "The ID of the user";
              param_enum := None |};
           {| param_name := "task_id"; param_type := "integer";
              param_description := "The ID of the task to update (optional if title_to_find is provided)";
              param_enum := None |};
           {| param_name := "title_to_find"; param_type := "string";
              param_description := "The title of the task to update (optional if task_id is provided)";
              param_enum := None |};
           {| param_name := "new_title"; param_type := "string";
              param_description := "The new title for the task (optional)";
              param_enum := None |};
           {| param_name := "new_description"; param_type := "string";
              param_description := "The new description for the task (optional)";
              param_enum := None |} ];
       tool_required := ["user_id"] |} ].

(** * Vocabulary of the statements *)

(** *** Numerals *)

(** The value a decimal numeral denotes, read digit by digit from an
    accumulator. *)
Fixpoint uint_value (d : Decimal.uint) (acc : Z) : Z :=
  match d with
  | Decimal.Nil => acc
  | Decimal.D0 d => uint_value d (10 * acc)
  | Decimal.D1 d => uint_value d (10 * acc + 1)
  | Decimal.D2 d => uint_value d (10 * acc + 2)
  | Decimal.D3 d => uint_value d (10 * acc + 3)
  | Decimal.D4 d => uint_value d (10 * acc + 4)
  | Decimal.D5 d => uint_value d (10 * acc + 5)
  | Decimal.D6 d => uint_value d (10 * acc + 6)
  | Decimal.D7 d => uint_value d (10 * acc + 7)
  | Decimal.D8 d => uint_value d (10 * acc + 8)
  | Decimal.D9 d => uint_value d (10 * acc + 9)
  end.

Fixpoint no_space (s : string) : bool :=
  match s with
  | EmptyString => true
  | String c s' => negb (is_space c) && no_space s'
  end.


(** *** Errors and lookups *)

(** The filter [list_tasks] derives from its [status] parameter. *)
Definition status_flag (status_filter : pyval) : option bool :=
  if bool_decide (status_filter = VStr "pending") then Some false
  else if bool_decide (status_filter = VStr "completed") then Some true
  else None.

(** A value the [description] column takes as it is. *)
Definition text_or_none (v : pyval) : Prop :=
  match v with
  | VNone | VStr _ => True
  | _ => False
  end.


(** The title [update_task] searches for. *)
Definition update_alias (params : gmap string pyval) : pyval :=
  py_or (get params "title_to_find")
    (py_or (get params "task_name")
       (py_or (get params "name")
          (py_or (get params "task_title") (get params "title")))).

Definition deleted (row : Task.t) : gmap string pyval :=
  list_to_map [("task_id", VInt (Task.id row));
               ("title", VStr (Task.title row));
               ("status", VStr "deleted")].

(** The arguments of a call after the identity override. *)
Definition caller_arguments (tool_call : tool_call) (current_user : User.t)
  : gmap string pyval :=
  <["user_id" := VStr (str_int (User.id current_user))]> (arguments tool_call).


(** *** Ownership *)

(** The owner an event on the task table names. *)
Definition event_owner (e : event) : option Z :=
  match e with
  | TaskSelect owner => Some owner
  | TaskInsert row | TaskUpdate row | TaskDelete row => Some (Task.user_id row)
  | _ => None
  end.

(** The primary key of the task table: ids are unique and below the next
    value of the sequence. *)
Definition primary_key (w : World) : Prop :=
  NoDup (List.map Task.id (tasks w))
  ∧ Forall (λ t, Task.id t < tasks_seq w) (tasks w).

(** The rows of the task table that do not belong to [uid]. *)
Definition foreign_rows (uid : Z) (w : World) : list Task.t :=
  List.filter (λ t, negb (Z.eqb (Task.user_id t) uid)) (tasks w).

(** The world without its trace. *)
Definition forget_trace (w : World) : World :=
  mkWorld (tasks w) (tasks_seq w) (conversations w) (conversations_seq w)
          (messages w) (messages_seq w) (clock w) [].

(** [w'] comes from [w] by statements on the task table that all name
    [uid] as the owner: the trace grew by such events only, the chat
    tables and the clock are as before and, when the primary key holds, it
    still holds and the rows of the other users are the same rows in the
    same order. *)
Definition acts_for (uid : Z) (w w' : World) : Prop :=
  (∃ new, trace w' = (trace w ++ new)%list
          ∧ Forall (λ e, event_owner e = Some uid) new)
  ∧ (conversations w' = conversations w
     ∧ conversations_seq w' = conversations_seq w
     ∧ messages w' = messages w
     ∧ messages_seq w' = messages_seq w
     ∧ clock w' = clock w)
  ∧ (primary_key w → primary_key w' ∧ foreign_rows uid w' = foreign_rows uid w).

(** What a tool does when its [user_id] is the caller's: it acts for the
    caller, and when it raises the tables are as before. *)
Definition tool_post {A : Type} (uid : Z) (w : World) (out : result A * World) : Prop :=
  acts_for uid w out.2 ∧ (∀ e, out.1 = Raise e → forget_trace out.2 = forget_trace w).


(** A computation that returns in every world. *)
Definition returns {A : Type} (m : M A) : Prop :=
  ∀ w, ∃ a w', m w = (Ok a, w').

(** A computation that returns in every world, with a value in [P]. *)
Definition yields {A : Type} (m : M A) (P : A → Prop) : Prop :=
  ∀ w, ∃ a w', m w = (Ok a, w') ∧ P a.

(** The sentence that answers a failed completion call. *)
Definition apology : string :=
  "Sorry, I encountered an error processing your request. Please try again.".

(** *** Titles and patterns *)





(** *** Conversations *)

Definition turn_of (m : Message.t) : turn := (Message.role m, Message.content m).

(** The requests made to the completion endpoint, oldest first. *)
Definition completion_requests (w : World) : list (list turn) :=
  omap (λ e, match e with Completion messages => Some messages | _ => None end) (trace w).

(** Stamps never decrease along the stored order. *)
Fixpoint ascending (l : list Message.t) : Prop :=
  match l with
  | [] => True
  | m :: l' =>
      Forall (λ x, Message.created_at m ≤ Message.created_at x) l' ∧ ascending l'
  end.

(** The messages are stored in the order of their stamps, none of them
    later than the clock. *)
Definition stamped (w : World) : Prop :=
  ascending (messages w)
  ∧ Forall (λ m, Message.created_at m ≤ clock w) (messages w).

(** *** Worked inputs *)

(** A small database for the examples: user 1 owns tasks 1 and 3, user 2
    owns task 2; no conversation yet. *)
Definition sample_world : World :=
  mkWorld
    [Task.mk 1 1 "axb" (Some "first") false;
     Task.mk 2 2 "Buy MILK" None true;
     Task.mk 3 1 "Pay rent" None true]
    4 [] 1 [] 1 0 [].

Definition alice : User.t := User.mk 1 "alice@example.org".

(** A completion endpoint that is down. *)
Definition api_down : list turn → api_reply :=
  λ _, ApiFailure (GenericException "Connection error.").

(** A batch whose calls all carry user 2's id while user 1 is the caller:
    an add, a delete of user 2's task by id, and a delete of it by title. *)
Definition forged_batch : list tool_call :=
  [ {| call_id := "call_1"; function_name := "add_task";
       arguments := list_to_map [("user_id", VStr "2"); ("title", VStr "Groceries")] |};
    {| call_id := "call_2"; function_name := "delete_task";
       arguments := list_to_map [("user_id", VStr "2"); ("task_id", VInt 2)] |};
    {| call_id := "call_3"; function_name := "delete_task";
       arguments := list_to_map [("user_id", VStr "2"); ("title", VStr "buy milk")] |} ].

(** The model asks for [add_task] and leaves the title out. *)
Definition api_add_without_title : list turn → api_reply :=
  λ _, ApiChoice None
         [ {| raw_id := "call_1"; raw_name := "add_task";
              raw_arguments := Ok (list_to_map [("user_id", VStr "1");
                                                ("description", VStr "two litres")]) |} ].

(** Conversation 1 of user 1 after 25 turns: 50 stored messages, stamped
    1 to 50. *)
Definition long_conversation : World :=
  mkWorld [] 1 [Conversation.mk 1 1 0 0] 2
    (List.map (λ i, Message.mk i 1 1 (if Z.even i then "assistant" else "user")
                      ("message " +:+ str_int i) i)
              (List.map Z.of_nat (List.seq 1 50)))
    51 51 [].

(** The model asks for one [add_task]. *)
Definition api_add_groceries : list turn → api_reply :=
  λ _, ApiChoice None
         [ {| raw_id := "call_1"; raw_name := "add_task";
              raw_arguments := Ok (list_to_map [("user_id", VStr "1");
                                                ("title", VStr "Groceries")]) |} ].

(** *** The task operations, further *)


(** The result of [complete_task] for a row. *)
Definition completed_result (row : Task.t) : gmap string pyval :=
  list_to_map [("task_id", VInt (Task.id row));
               ("status", VStr "completed");
               ("title", VStr (Task.title row))].

(** The message of the error raised when a lookup by id finds nothing. *)
Definition not_found_by_id (task_id user_id : pyval) : pyexc :=
  ValueError ("Task " +:+ fmt task_id +:+ " not found for user " +:+ fmt user_id).

(** *** The registry *)

(** The parameters the schema of a tool requires, by tool name; none for
    a name that is not registered. *)
Definition required_of (name : string) : list string :=
  match List.find (λ t, String.eqb (tool_name t) name) get_mcp_tools_definitions with
  | Some t => tool_required t
  | None => []
  end.

(** The call raised on a missing key. *)
Definition raised_KeyError {A : Type} (r : result A) : bool :=
  match r with
  | Raise (KeyError _) => true
  | _ => false
  end.

(** Every key of the list is bound in the dictionary. *)
Definition all_present (keys : list string) (d : gmap string pyval) : bool :=
  List.forallb (λ k, bool_decide (is_Some (d !! k))) keys.

(** *** The chat tables *)

(** The messages stored for conversation [cid] and user [uid], in the
    stored order. *)
Definition stored_messages (cid uid : Z) (w : World) : list Message.t :=
  List.filter (λ m, Z.eqb (Message.conversation_id m) cid && Z.eqb (Message.user_id m) uid)
              (messages w).

(** The primary key of the conversation table. *)
Definition conversation_key (w : World) : Prop :=
  NoDup (List.map Conversation.id (conversations w))
  ∧ Forall (λ c, Conversation.id c < conversations_seq w) (conversations w).

(** The conversations and the messages that do not belong to [uid]. *)
Definition foreign_conversations (uid : Z) (w : World) : list Conversation.t :=
  List.filter (λ c, negb (Z.eqb (Conversation.user_id c) uid)) (conversations w).

Definition foreign_messages (uid : Z) (w : World) : list Message.t :=
  List.filter (λ m, negb (Z.eqb (Message.user_id m) uid)) (messages w).

(** The argument text of the call could not be decoded. *)
Definition undecodable (c : raw_tool_call) : bool :=
  match raw_arguments c with
  | Raise _ => true
  | Ok _ => false
  end.

(** *** Further worked inputs *)

(** Conversation 1 of user 1 with one exchange stored, and a message of
    user 2 in a conversation of their own. *)
Definition short_conversation : World :=
  mkWorld
    [Task.mk 1 1 "axb" (Some "first") false]
    2
    [Conversation.mk 1 1 0 3; Conversation.mk 2 2 4 5]
    3
    [Message.mk 1 1 1 "user" "hello" 1;
     Message.mk 2 1 1 "assistant" "Hi, how can I help?" 2;
     Message.mk 3 2 2 "user" "list my tasks" 6]
    4 7 [].

(** The model asks for two calls; the argument text of the second is not
    JSON. *)
Definition api_broken_arguments : list turn → api_reply :=
  λ _, ApiChoice None
         [ {| raw_id := "call_1"; raw_name := "add_task";
              raw_arguments := Ok (list_to_map [("user_id", VStr "1");
                                                ("title", VStr "Groceries")]) |};
           {| raw_id := "call_2"; raw_name := "complete_task";
              raw_arguments :=
                Raise (ValueError "Expecting value: line 1 column 1 (char 0)") |} ].

(** The model answers in words. *)
Definition api_plain_answer : list turn → api_reply :=
  λ _, ApiChoice (Some "You have no tasks yet.") [].

(** * Properties *)

(** ** [str] and [int] on integers *)

Lemma parse_digits_uint (d : Decimal.uint) :
  ∀ acc prev, d ≠ Decimal.Nil ∨ prev = true →
    parse_digits acc prev (NilEmpty.string_of_uint d) = Some (uint_value d acc).
Proof.
  induction d; intros acc prev H.
  - destruct H as [H | ->]; [congruence | reflexivity].
  - change (parse_digits (10 * acc + 0) true (NilEmpty.string_of_uint d)
            = Some (uint_value d (10 * acc))).
    rewrite Z.add_0_r. apply IHd. now right.
  - apply (IHd (10 * acc + 1) true). now right.
  - apply (IHd (10 * acc + 2) true). now right.
  - apply (IHd (10 * acc + 3) true). now right.
  - apply (IHd (10 * acc + 4) true). now right.
  - apply (IHd (10 * acc + 5) true). now right.
  - apply (IHd (10 * acc + 6) true). now right.
  - apply (IHd (10 * acc + 7) true). now right.
  - apply (IHd (10 * acc + 8) true). now right.
  - apply (IHd (10 * acc + 9) true). now right.
Qed.

Lemma of_uint_acc_value (d : Decimal.uint) :
  ∀ a, Z.pos (Pos.of_uint_acc d a) = uint_value d (Z.pos a).
Proof.
  induction d; intros a; cbn [Pos.of_uint_acc uint_value];
    try reflexivity; rewrite IHd; f_equal; lia.
Qed.

Lemma of_uint_value (d : Decimal.uint) : Z.of_N (Pos.of_uint d) = uint_value d 0.
Proof.
  induction d; cbn [Pos.of_uint uint_value]; try reflexivity;
    try (rewrite IHd; reflexivity);
    cbn [Z.of_N]; rewrite of_uint_acc_value; reflexivity.
Qed.

Lemma to_uint_value (p : positive) : uint_value (Pos.to_uint p) 0 = Z.pos p.
Proof. rewrite <- of_uint_value, DecimalPos.Unsigned.of_to. reflexivity. Qed.

Lemma no_space_uint (d : Decimal.uint) : no_space (NilEmpty.string_of_uint d) = true.
Proof. induction d; cbn; auto. Qed.

Lemma lstrip_no_space (s : string) : no_space s = true → lstrip s = s.
Proof.
  destruct s as [| c s]; [reflexivity |]. cbn. intros H.
  apply andb_prop in H as [H _]. apply negb_true_iff in H. now rewrite H.
Qed.

Lemma rstrip_no_space (s : string) : no_space s = true → rstrip s = s.
Proof.
  induction s as [| c s IH]; [reflexivity |]. cbn. intros H.
  apply andb_prop in H as [Hc Hs]. apply negb_true_iff in Hc.
  rewrite (IH Hs), Hc. now destruct s.
Qed.

Lemma strip_no_space (s : string) : no_space s = true → strip s = s.
Proof.
  intros H. unfold strip. rewrite (lstrip_no_space _ H). now apply rstrip_no_space.
Qed.

Lemma int_of_str_uint (d : Decimal.uint) :
  d ≠ Decimal.Nil →
  int_of_str (NilEmpty.string_of_uint d) = Some (uint_value d 0).
Proof.
  intros Hd. unfold int_of_str. rewrite (strip_no_space _ (no_space_uint d)).
  pose proof (parse_digits_uint d 0 false (or_introl Hd)) as H.
  destruct d; try congruence; exact H.
Qed.

(** [int(str(z)) == z]. *)
Lemma int_of_str_str_int (z : Z) : int_of_str (str_int z) = Some z.
Proof.
  destruct z as [| p | p]; [reflexivity | |].
  - unfold str_int. cbn [Z.to_int NilZero.string_of_int].
    pose proof (Unsigned.to_uint_nonnil p) as Hp.
    replace (NilZero.string_of_uint (Pos.to_uint p))
      with (NilEmpty.string_of_uint (Pos.to_uint p))
      by (unfold NilZero.string_of_uint; destruct (Pos.to_uint p); congruence).
    rewrite (int_of_str_uint _ Hp), to_uint_value. reflexivity.
  - unfold str_int. cbn [Z.to_int NilZero.string_of_int].
    pose proof (Unsigned.to_uint_nonnil p) as Hp.
    replace (NilZero.string_of_uint (Pos.to_uint p))
      with (NilEmpty.string_of_uint (Pos.to_uint p))
      by (unfold NilZero.string_of_uint; destruct (Pos.to_uint p); congruence).
    unfold int_of_str.
    rewrite strip_no_space by (cbn; apply no_space_uint).
    cbn [Ascii.eqb Bool.eqb].
    rewrite (parse_digits_uint _ 0 false (or_introl Hp)), to_uint_value.
    reflexivity.
Qed.

Lemma py_int_str_int (z : Z) : py_int (VStr (str_int z)) = Ok z.
Proof. unfold py_int. now rewrite int_of_str_str_int. Qed.

Lemma validate_user_str_int (z : Z) :
  validate_user (VStr (str_int z)) = Ok (Z.ltb 0 z).
Proof. unfold validate_user. now rewrite py_int_str_int. Qed.

(** ** Stepping through monadic code *)

Lemma bind_ok {A B : Type} (a : A) (f : A → M B) (w : World) :
  (pure (Ok a) ≫= f) w = f a w.
Proof. reflexivity. Qed.

Lemma bind_raise {A B : Type} (e : pyexc) (f : A → M B) (w : World) :
  (pure (Raise e : result A) ≫= f) w = (Raise e, w).
Proof. reflexivity. Qed.

Lemma bind_step {A B : Type} (m : M A) (f : A → M B) (w : World) :
  (m ≫= f) w = match m w with
               | (Ok a, w') => f a w'
               | (Raise e, w') => (Raise e, w')
               end.
Proof. reflexivity. Qed.

Lemma getitem_some (d : gmap string pyval) (k : string) (v : pyval) :
  d !! k = Some v → getitem d k = Ok v.
Proof. intros H. unfold getitem. now rewrite H. Qed.


Lemma get_absent (d : gmap string pyval) (k : string) : d !! k = None → get d k = VNone.
Proof. intros H. unfold get. by rewrite H. Qed.

Lemma get_present (d : gmap string pyval) (k : string) (v : pyval) :
  d !! k = Some v → get d k = v.
Proof. intros H. unfold get. by rewrite H. Qed.

Lemma py_or_none (v : pyval) : py_or VNone v = v.
Proof. reflexivity. Qed.

Lemma reraise_ok {A : Type} (r : result A) (msg : string) (a : A) :
  reraise_ValueError r msg = Ok a → r = Ok a.
Proof. destruct r as [| []]; cbn; congruence. Qed.

(** ** Validation of the user id *)

(** [validate_user] accepts exactly the values that [int] turns into a
    positive integer. *)
Lemma validate_user_true (v : pyval) :
  validate_user v = Ok true ↔ ∃ z, py_int v = Ok z ∧ 0 < z.
Proof.
  unfold validate_user. split.
  - destruct (py_int v) as [z | e] eqn:E.
    + intros [= H]. exists z. split; [reflexivity |]. now apply Z.ltb_lt.
    + destruct e; discriminate.
  - intros (z & -> & Hz). f_equal. now apply Z.ltb_lt.
Qed.


Lemma validate_user_positive (user_id : pyval) (uid : Z) :
  py_int user_id = Ok uid → 0 < uid → validate_user user_id = Ok true.
Proof. intros H Hpos. apply validate_user_true. by exists uid. Qed.











(** ** The authorization gate of the chat endpoint *)

(** C2. When the user id of the path is not the text of the authenticated
    caller's id, [chat_endpoint] raises the 403 error and returns the world
    as it was: no conversation is selected or created, no message is
    stored, the completion endpoint is not called and no tool runs, since
    each of these would add an event to the trace. *)
Theorem chat_endpoint_rejects_foreign_path
    (api : list turn → api_reply) (user_id : string) (chat_request : ChatRequest)
    (current_user : User.t) (w : World) :
  str_int (User.id current_user) ≠ user_id →
  chat_endpoint api user_id chat_request current_user w
  = (Raise (HTTPException 403 "Access denied"), w).
Proof.
  intros H. unfold chat_endpoint.
  apply String.eqb_neq in H. rewrite H. reflexivity.
Qed.

Lemma chat_endpoint_rejects_foreign_path_witness :
  chat_endpoint api_down "2" {| message := "Delete everything"; conversation_id := None |}
    alice sample_world
  = (Raise (HTTPException 403 "Access denied"), sample_world).
Proof.
  apply chat_endpoint_rejects_foreign_path. vm_compute. discriminate.
Defined.

(** ** Rows and primary keys *)

Lemma same_id_same_row (l : list Task.t) (a b : Task.t) :
  NoDup (List.map Task.id l) → a ∈ l → b ∈ l → Task.id a = Task.id b → a = b.
Proof.
  induction l as [| x l IH]; cbn; intros Hnd Ha Hb Hid.
  - by apply elem_of_nil in Ha.
  - apply NoDup_cons in Hnd as [Hx Hnd].
    apply elem_of_cons in Ha as [-> | Ha]; apply elem_of_cons in Hb as [-> | Hb].
    + reflexivity.
    + exfalso. apply Hx. rewrite Hid. apply (list_elem_of_fmap_2 Task.id), Hb.
    + exfalso. apply Hx. rewrite <- Hid. apply (list_elem_of_fmap_2 Task.id), Ha.
    + by apply IH.
Qed.

Lemma find_elem (P : Task.t → bool) (l : list Task.t) (t : Task.t) :
  List.find P l = Some t → t ∈ l ∧ P t = true.
Proof.
  intros H. apply List.find_some in H as [Hin HP].
  split; [by apply list_elem_of_In | done].
Qed.

Lemma find_absent (P : Task.t → bool) (l : list Task.t) :
  List.find P l = None → ∀ t, t ∈ l → P t = false.
Proof.
  intros H t Ht. apply (List.find_none P l H). by apply list_elem_of_In.
Qed.


(** The lookup by [(id, owner)] returns the row with that key. *)
Lemma find_by_key (l : list Task.t) (t : Task.t) :
  NoDup (List.map Task.id l) → t ∈ l →
  List.find (λ x, Z.eqb (Task.id x) (Task.id t) && Z.eqb (Task.user_id x) (Task.user_id t)) l
  = Some t.
Proof.
  intros Hnd Ht.
  destruct (List.find _ l) as [t' |] eqn:E.
  - apply find_elem in E as [Ht' HP].
    apply andb_prop in HP as [Hid _]. apply Z.eqb_eq in Hid.
    f_equal. by apply (same_id_same_row l).
  - pose proof (find_absent _ _ E t Ht) as HP. cbn in HP.
    by rewrite !Z.eqb_refl in HP.
Qed.

(** Writing back a row that did not change leaves the table as it was. *)
Lemma rewrite_same_row (l : list Task.t) (t : Task.t) :
  NoDup (List.map Task.id l) → t ∈ l →
  List.map (λ x, if Z.eqb (Task.id x) (Task.id t) then t else x) l = l.
Proof.
  intros Hnd Ht.
  rewrite <- (List.map_id l) at 2. apply List.map_ext_in.
  intros x Hx. apply list_elem_of_In in Hx.
  destruct (Z.eqb_spec (Task.id x) (Task.id t)) as [Hid |]; [| done].
  symmetry. by apply (same_id_same_row l).
Qed.

Lemma with_completed_same (t : Task.t) :
  Task.completed t = true → with_completed t true = t.
Proof. destruct t; cbn; by intros ->. Qed.

Lemma filter_none {A : Type} (P : A → bool) (l : list A) :
  (∀ x, x ∈ l → P x = false) → List.filter P l = [].
Proof.
  induction l as [| a l IH]; [done |]. intros H. cbn.
  rewrite (H a) by apply list_elem_of_here.
  apply IH. intros x Hx. apply H. by apply list_elem_of_further.
Qed.

Lemma filter_map_same {A : Type} (P : A → bool) (f : A → A) (l : list A) :
  (∀ x, x ∈ l → f x = x ∨ (P x = false ∧ P (f x) = false)) →
  List.filter P (List.map f l) = List.filter P l.
Proof.
  induction l as [| a l IH]; [done |]. intros H. cbn.
  rewrite IH by (intros x Hx; apply H; by apply list_elem_of_further).
  destruct (H a (list_elem_of_here _ _)) as [-> | [-> ->]]; done.
Qed.

Lemma filter_filter_same {A : Type} (P Q : A → bool) (l : list A) :
  (∀ x, x ∈ l → Q x = true ∨ P x = false) →
  List.filter P (List.filter Q l) = List.filter P l.
Proof.
  induction l as [| a l IH]; [done |]. intros H. cbn.
  rewrite <- IH by (intros x Hx; apply H; by apply list_elem_of_further).
  destruct (H a (list_elem_of_here _ _)) as [-> | Hp]; [done |].
  destruct (Q a); cbn; by rewrite Hp.
Qed.

(** ** Completing a task *)

(** C8. For a task owned by the caller and already completed,
    [complete_task] on its id returns without error, reports the status
    ["completed"], and leaves the table as it was, so the task is still
    there with its flag set. *)
Theorem complete_task_idempotent
    (params : gmap string pyval) (user_id task_id : pyval) (t : Task.t) (w : World) :
  NoDup (List.map Task.id (tasks w)) →
  t ∈ tasks w →
  Task.completed t = true →
  params !! "user_id" = Some user_id →
  py_int user_id = Ok (Task.user_id t) →
  0 < Task.user_id t →
  params !! "task_id" = Some task_id →
  py_int task_id = Ok (Task.id t) →
  ∃ w',
    complete_task params w
    = (Ok (list_to_map [("task_id", VInt (Task.id t));
                        ("status", VStr "completed");
                        ("title", VStr (Task.title t))]), w')
    ∧ tasks w' = tasks w
    ∧ t ∈ tasks w'.
Proof.
  intros Hnd Ht Hc Hu Hui Hpos Hk Hki.
  assert (Hv : validate_user user_id = Ok true).
  { apply validate_user_true. by exists (Task.user_id t). }
  unfold complete_task.
  rewrite (getitem_some _ _ _ Hu), bind_ok, (getitem_some _ _ _ Hk), bind_ok, Hv, bind_ok.
  cbn [negb]. rewrite Hui, Hki. cbn [mbind result_bind mret result_ret reraise_ValueError].
  rewrite bind_ok, bind_step. unfold select_task_by_id. cbn [fst snd].
  cbn [tasks record]. rewrite (find_by_key _ _ Hnd Ht).
  rewrite (with_completed_same _ Hc).
  eexists. split; [reflexivity |].
  cbn [tasks record set_tasks]. rewrite (rewrite_same_row _ _ Hnd Ht). done.
Qed.

Lemma complete_task_idempotent_witness :
  ∃ w',
    complete_task (list_to_map [("user_id", VStr "1"); ("task_id", VInt 3)]) sample_world
    = (Ok (list_to_map [("task_id", VInt 3);
                        ("status", VStr "completed");
                        ("title", VStr "Pay rent")]), w')
    ∧ tasks w' = tasks sample_world
    ∧ Task.mk 3 1 "Pay rent" None true ∈ tasks w'.
Proof.
  apply (complete_task_idempotent
           (list_to_map [("user_id", VStr "1"); ("task_id", VInt 3)])
           (VStr "1") (VInt 3) (Task.mk 3 1 "Pay rent" None true) sample_world).
  - apply (bool_decide_unpack _). vm_compute. exact I.
  - apply (bool_decide_unpack _). vm_compute. exact I.
  - reflexivity.
  - reflexivity.
  - reflexivity.
  - simpl. lia.
  - reflexivity.
  - reflexivity.
Defined.

(** ** Adding and listing *)

Lemma add_task_ok (params : gmap string pyval) (user_id : pyval) (uid : Z)
    (T : string) (d : option string) (w : World) :
  params !! "user_id" = Some user_id → py_int user_id = Ok uid → 0 < uid →
  params !! "title" = Some (VStr T) →
  description_column (get_default params "description" (VStr "")) = Ok d →
  let row := Task.mk (tasks_seq w) uid T d false in
  add_task params w
  = (Ok (list_to_map [("task_id", VInt (Task.id row));
                      ("status", VStr "created");
                      ("title", VStr T);
                      ("description", of_option d);
                      ("completed", VBool false)]),
     record (TaskInsert row) (set_tasks (tasks w ++ [row]) (tasks_seq w + 1) w)).
Proof.
  intros Hu Hui Hpos Ht Hd row. unfold add_task.
  rewrite (getitem_some _ _ _ Hu), bind_ok, (getitem_some _ _ _ Ht), bind_ok.
  rewrite (validate_user_positive _ _ Hui Hpos), bind_ok. cbn [negb].
  rewrite Hui. cbn [reraise_ValueError]. rewrite bind_ok, bind_step.
  unfold insert_task. cbn [title_column]. rewrite Hd. reflexivity.
Qed.

Lemma list_tasks_ok (params : gmap string pyval) (user_id : pyval) (uid : Z) (w : World) :
  params !! "user_id" = Some user_id → py_int user_id = Ok uid → 0 < uid →
  list_tasks params w
  = (Ok (List.map task_summary
           (List.filter
              (λ t, Z.eqb (Task.user_id t) uid &&
                    match status_flag (get_default params "status" (VStr "all")) with
                    | Some b => Bool.eqb (Task.completed t) b
                    | None => true
                    end)
              (tasks w))),
     record (TaskSelect uid) w).
Proof.
  intros Hu Hui Hpos. unfold list_tasks.
  rewrite (getitem_some _ _ _ Hu), bind_ok.
  rewrite (validate_user_positive _ _ Hui Hpos), bind_ok. cbn [negb].
  rewrite Hui. cbn [reraise_ValueError]. rewrite bind_ok. reflexivity.
Qed.

Lemma task_summary_title (t : Task.t) :
  task_summary t !! "title" = Some (VStr (Task.title t)).
Proof. reflexivity. Qed.

(** C9. From a state where the caller owns no task titled [T],
    [add_task] with title [T] and description [D] followed by
    [list_tasks] with status ["all"] for the same caller both succeed, and
    the list has exactly one entry titled [T]: the new task, with
    description [D] and [completed] false. *)
Theorem add_then_list_round_trip
    (add_params list_params : gmap string pyval) (user_id user_id' : pyval) (uid : Z)
    (T D : string) (w : World) :
  0 < uid →
  add_params !! "user_id" = Some user_id → py_int user_id = Ok uid →
  add_params !! "title" = Some (VStr T) →
  add_params !! "description" = Some (VStr D) →
  list_params !! "user_id" = Some user_id' → py_int user_id' = Ok uid →
  get_default list_params "status" (VStr "all") = VStr "all" →
  (∀ t, t ∈ tasks w → Task.user_id t = uid → Task.title t ≠ T) →
  ∃ r w1 l w2,
    add_task add_params w = (Ok r, w1)
    ∧ list_tasks list_params w1 = (Ok l, w2)
    ∧ List.filter (λ e, bool_decide (e !! "title" = Some (VStr T))) l
      = [list_to_map [("id", VInt (tasks_seq w));
                      ("title", VStr T);
                      ("description", VStr D);
                      ("completed", VBool false);
                      ("user_id", VInt uid)]].
Proof.
  intros Hpos Hu Hui Ht Hd Hu' Hui' Hs Hfresh.
  eexists _, _, _, _. split; [| split].
  - apply (add_task_ok add_params user_id uid T (Some D)); try done.
    unfold get_default. by rewrite Hd.
  - by apply (list_tasks_ok list_params user_id' uid).
  - rewrite Hs. change (status_flag (VStr "all")) with (@None bool).
    cbn [tasks record set_tasks].
    rewrite List.filter_app, List.map_app, List.filter_app.
    rewrite (filter_none _ (List.map _ _)).
    + cbn [List.filter Task.user_id Task.completed]. rewrite Z.eqb_refl.
      cbn [andb List.map List.filter]. rewrite task_summary_title. cbn [Task.title].
      rewrite bool_decide_eq_true_2 by done. reflexivity.
    + intros e He. apply list_elem_of_fmap in He as (t & -> & Hin).
      apply list_elem_of_In, List.filter_In in Hin as [Hin Hown].
      apply andb_prop in Hown as [Hown _]. apply Z.eqb_eq in Hown.
      rewrite task_summary_title. apply bool_decide_eq_false_2.
      intros [= Heq]. apply (Hfresh t); [by apply list_elem_of_In | done | done].
Qed.

Lemma add_then_list_round_trip_witness :
  ∃ r w1 l w2,
    add_task (list_to_map [("user_id", VStr "1"); ("title", VStr "Groceries");
                           ("description", VStr "weekly")]) sample_world = (Ok r, w1)
    ∧ list_tasks (list_to_map [("user_id", VStr "1"); ("status", VStr "all")]) w1 = (Ok l, w2)
    ∧ List.filter (λ e, bool_decide (e !! "title" = Some (VStr "Groceries"))) l
      = [list_to_map [("id", VInt 4);
                      ("title", VStr "Groceries");
                      ("description", VStr "weekly");
                      ("completed", VBool false);
                      ("user_id", VInt 1)]].
Proof.
  apply (add_then_list_round_trip
           (list_to_map [("user_id", VStr "1"); ("title", VStr "Groceries");
                         ("description", VStr "weekly")])
           (list_to_map [("user_id", VStr "1"); ("status", VStr "all")])
           (VStr "1") (VStr "1") 1 "Groceries" "weekly" sample_world).
  - lia.
  - reflexivity.
  - reflexivity.
  - reflexivity.
  - reflexivity.
  - reflexivity.
  - reflexivity.
  - reflexivity.
  - apply (proj1 (Forall_forall
                    (λ t, Task.user_id t = 1 → Task.title t ≠ "Groceries")
                    (tasks sample_world))).
    apply (bool_decide_unpack _). vm_compute. exact I.
Defined.

(** ** Finding a task by id or by title *)









(** With a [task_id], [delete_task] looks the task up by [(id, owner)]
    whatever the title aliases say, and a miss names the id. *)
Lemma delete_task_by_id (params : gmap string pyval) (user_id task_id : pyval)
    (uid tid : Z) (w : World) :
  params !! "user_id" = Some user_id → py_int user_id = Ok uid → 0 < uid →
  params !! "task_id" = Some task_id → py_int task_id = Ok tid →
  delete_task params w
  = match List.find (λ t, Z.eqb (Task.id t) tid && Z.eqb (Task.user_id t) uid) (tasks w) with
    | Some row => (Ok (deleted row), (delete_row row (record (TaskSelect uid) w)).2)
    | None => (Raise (ValueError ("Task " +:+ fmt task_id +:+ " not found for user "
                                  +:+ fmt user_id)),
               record (TaskSelect uid) w)
    end.
Proof.
  intros Hu Hui Hpos Ht Hti. unfold delete_task.
  rewrite (getitem_some _ _ _ Hu), bind_ok.
  rewrite (validate_user_positive _ _ Hui Hpos), bind_ok. cbn [negb].
  rewrite Hui. cbn [reraise_ValueError]. rewrite bind_ok, bind_step.
  rewrite (get_present _ _ _ Ht).
  assert (is_not_none task_id = true) as -> by (by destruct task_id).
  rewrite Hti. cbn [reraise_ValueError]. rewrite bind_ok.
  unfold select_task_by_id. by destruct (List.find _ (tasks w)).
Qed.



(** [update_task] resolves the task the same way when a [task_id] is
    given. *)
Lemma update_task_by_id (params : gmap string pyval) (user_id task_id : pyval)
    (uid tid : Z) (w : World) :
  params !! "user_id" = Some user_id → py_int user_id = Ok uid → 0 < uid →
  params !! "task_id" = Some task_id → py_int task_id = Ok tid →
  List.find (λ t, Z.eqb (Task.id t) tid && Z.eqb (Task.user_id t) uid) (tasks w) = None →
  update_task params w
  = (Raise (ValueError ("Task " +:+ fmt task_id +:+ " not found for user " +:+ fmt user_id)),
     record (TaskSelect uid) w).
Proof.
  intros Hu Hui Hpos Ht Hti Hf. unfold update_task.
  rewrite (getitem_some _ _ _ Hu), bind_ok.
  rewrite (validate_user_positive _ _ Hui Hpos), bind_ok. cbn [negb].
  rewrite Hui. cbn [reraise_ValueError]. rewrite bind_ok, bind_step.
  rewrite (get_present _ _ _ Ht).
  assert (is_not_none task_id = true) as -> by (by destruct task_id).
  rewrite Hti. cbn [reraise_ValueError]. rewrite bind_ok.
  unfold select_task_by_id. by rewrite Hf.
Qed.

(** Without a [task_id], a miss of [update_task] names the search
    string. *)
Lemma update_task_title_not_found (params : gmap string pyval) (user_id : pyval)
    (uid : Z) (needle : string) (w : World) :
  params !! "user_id" = Some user_id → py_int user_id = Ok uid → 0 < uid →
  params !! "task_id" = None →
  update_alias params = VStr needle →
  List.find (λ t, ilike ("%" +:+ needle +:+ "%") (Task.title t) && Z.eqb (Task.user_id t) uid)
            (tasks w) = None →
  update_task params w
  = (Raise (ValueError ("Task with title '" +:+ needle +:+ "' not found for user "
                        +:+ fmt user_id)),
     record (TaskSelect uid) w).
Proof.
  intros Hu Hui Hpos Ht Ha Hf. unfold update_task. fold (update_alias params).
  rewrite (getitem_some _ _ _ Hu), bind_ok.
  rewrite (validate_user_positive _ _ Hui Hpos), bind_ok. cbn [negb].
  rewrite Hui. cbn [reraise_ValueError]. rewrite bind_ok, bind_step.
  rewrite (get_absent _ _ Ht), Ha. cbn [is_not_none fmt].
  unfold select_task_by_title. by rewrite Hf.
Qed.

(** The spec's example: ["Buy milk"] finds ["Buy MILK"]. *)
Example delete_buy_milk :
  (delete_task (list_to_map [("user_id", VStr "2"); ("title", VStr "Buy milk")])
     sample_world).1
  = Ok (deleted (Task.mk 2 2 "Buy MILK" None true)).
Proof. reflexivity. Qed.

(** C6. [update_task] hands the search string to the pattern match as it
    is: ["a_b"] finds the task titled ["axb"], whose title does not
    contain it, and renames it.  [delete_task] escapes the string first
    and finds no task for the same search. *)
Theorem update_task_does_not_escape_wildcards :
  let stray : gmap string pyval :=
    list_to_map [("user_id", VStr "1"); ("title_to_find", VStr "a_b");
                 ("new_title", VStr "renamed")] in
  (update_task stray sample_world).1
  = Ok (list_to_map [("task_id", VInt 1); ("status", VStr "updated");
                     ("title", VStr "renamed"); ("description", VStr "first")])
  ∧ tasks (update_task stray sample_world).2
    = [Task.mk 1 1 "renamed" (Some "first") false;
       Task.mk 2 2 "Buy MILK" None true;
       Task.mk 3 1 "Pay rent" None true]
  ∧ (delete_task (list_to_map [("user_id", VStr "1"); ("title", VStr "a_b")]) sample_world).1
    = Raise (ValueError "Task with title 'a_b' not found for user 1").
Proof.
  cbv zeta. split; [vm_compute; reflexivity |].
  split; vm_compute; reflexivity.
Qed.

(** ** Updating by title *)

Lemma assign_text (t : Task.t) (s : string) (a b : pyval) :
  text_or_none a → text_or_none b →
  ∃ d, assign t (VStr s) (py_or a b)
       = Ok (Task.mk (Task.id t) (Task.user_id t) s d (Task.completed t)).
Proof.
  intros Ha Hb. unfold assign, py_or.
  destruct a as [| a | |]; try done; destruct b as [| b | |]; try done;
    cbn; try destruct (String.eqb a ""); cbn; eauto.
Qed.

(** C10. When an [update_task] call carries a ["title"] and none of
    [task_id], [title_to_find], [task_name], [name], [task_title] and
    [new_title], the title is the search key and also the new value: if
    the search for it finds the caller's task [t], the call succeeds and
    the stored title of [t] becomes the search string. *)
Theorem update_task_title_is_key_and_value
    (params : gmap string pyval) (user_id : pyval) (uid : Z) (s : string)
    (t : Task.t) (w : World) :
  params !! "user_id" = Some user_id → py_int user_id = Ok uid → 0 < uid →
  params !! "title" = Some (VStr s) →
  params !! "task_id" = None →
  params !! "title_to_find" = None →
  params !! "task_name" = None →
  params !! "name" = None →
  params !! "task_title" = None →
  params !! "new_title" = None →
  text_or_none (get params "new_description") →
  text_or_none (get params "description") →
  List.find (λ x, ilike ("%" +:+ s +:+ "%") (Task.title x) && Z.eqb (Task.user_id x) uid)
            (tasks w) = Some t →
  ∃ r t' w',
    update_task params w = (Ok r, w')
    ∧ r !! "task_id" = Some (VInt (Task.id t))
    ∧ r !! "title" = Some (VStr s)
    ∧ Task.id t' = Task.id t
    ∧ Task.title t' = s
    ∧ tasks w' = List.map (λ x, if Z.eqb (Task.id x) (Task.id t) then t' else x) (tasks w)
    ∧ t' ∈ tasks w'.
Proof.
  intros Hu Hui Hpos Ht H1 H2 H3 H4 H5 H6 Hnd Hd Hfind.
  destruct (assign_text t s _ _ Hnd Hd) as [d Ha].
  unfold update_task.
  rewrite (getitem_some _ _ _ Hu), bind_ok.
  rewrite (validate_user_positive _ _ Hui Hpos), bind_ok. cbn [negb].
  rewrite Hui. cbn [reraise_ValueError]. rewrite bind_ok.
  rewrite (get_absent _ _ H1), (get_absent _ _ H2), (get_absent _ _ H3),
    (get_absent _ _ H4), (get_absent _ _ H5), (get_absent _ _ H6),
    (get_present _ _ _ Ht), !py_or_none.
  cbn [is_not_none fmt]. rewrite bind_step.
  unfold select_task_by_title. rewrite Hfind, Ha, bind_ok.
  eexists _, (Task.mk (Task.id t) (Task.user_id t) s d (Task.completed t)), _.
  split; [reflexivity |].
  split; [reflexivity |]. split; [reflexivity |].
  split; [reflexivity |]. split; [reflexivity |].
  split; [reflexivity |].
  cbn [tasks record set_tasks Task.id].
  apply find_elem in Hfind as [Hin _].
  apply list_elem_of_fmap. exists t. by rewrite Z.eqb_refl.
Qed.

Lemma update_task_title_is_key_and_value_witness :
  ∃ r t' w',
    update_task (list_to_map [("user_id", VStr "1"); ("title", VStr "rent")]) sample_world
    = (Ok r, w')
    ∧ r !! "task_id" = Some (VInt 3)
    ∧ r !! "title" = Some (VStr "rent")
    ∧ Task.id t' = 3
    ∧ Task.title t' = "rent"
    ∧ tasks w' = List.map (λ x, if Z.eqb (Task.id x) 3 then t' else x) (tasks sample_world)
    ∧ t' ∈ tasks w'.
Proof.
  apply (update_task_title_is_key_and_value
           (list_to_map [("user_id", VStr "1"); ("title", VStr "rent")])
           (VStr "1") 1 "rent" (Task.mk 3 1 "Pay rent" None true) sample_world).
  - reflexivity.
  - reflexivity.
  - lia.
  - reflexivity.
  - reflexivity.
  - reflexivity.
  - reflexivity.
  - reflexivity.
  - reflexivity.
  - reflexivity.
  - vm_compute. exact I.
  - vm_compute. exact I.
  - vm_compute. reflexivity.
Defined.

Lemma assign_title (t t' : Task.t) (s : string) (b : pyval) :
  assign t (VStr s) b = Ok t' → Task.title t' = s ∧ Task.id t' = Task.id t.
Proof.
  unfold assign. cbn [is_not_none title_column mbind result_bind mret result_ret].
  destruct (if is_not_none b then _ else _); [| discriminate].
  by intros [= <-].
Qed.

(** Conversely, such a call only returns when the search found a task of
    the caller, and that task then carries the search string as its
    title. *)
Lemma update_task_title_only_success
    (params : gmap string pyval) (user_id : pyval) (uid : Z) (s : string)
    (r : gmap string pyval) (w w' : World) :
  params !! "user_id" = Some user_id → py_int user_id = Ok uid → 0 < uid →
  params !! "title" = Some (VStr s) →
  params !! "task_id" = None →
  params !! "title_to_find" = None →
  params !! "task_name" = None →
  params !! "name" = None →
  params !! "task_title" = None →
  params !! "new_title" = None →
  update_task params w = (Ok r, w') →
  ∃ t t',
    List.find (λ x, ilike ("%" +:+ s +:+ "%") (Task.title x) && Z.eqb (Task.user_id x) uid)
              (tasks w) = Some t
    ∧ r !! "title" = Some (VStr s)
    ∧ Task.title t' = s
    ∧ tasks w' = List.map (λ x, if Z.eqb (Task.id x) (Task.id t) then t' else x) (tasks w).
Proof.
  intros Hu Hui Hpos Ht H1 H2 H3 H4 H5 H6. unfold update_task.
  rewrite (getitem_some _ _ _ Hu), bind_ok.
  rewrite (validate_user_positive _ _ Hui Hpos), bind_ok. cbn [negb].
  rewrite Hui. cbn [reraise_ValueError]. rewrite bind_ok.
  rewrite (get_absent _ _ H1), (get_absent _ _ H2), (get_absent _ _ H3),
    (get_absent _ _ H4), (get_absent _ _ H5), (get_absent _ _ H6),
    (get_present _ _ _ Ht), !py_or_none.
  cbn [is_not_none fmt]. rewrite bind_step. unfold select_task_by_title.
  destruct (List.find _ (tasks w)) as [t |]; [| discriminate].
  destruct (assign t (VStr s) _) as [t' | e] eqn:Ea;
    [rewrite bind_ok | rewrite bind_raise; discriminate].
  apply assign_title in Ea as [Htitle Hid].
  intros [= <- <-]. exists t, t'. split; [reflexivity |].
  split; [by rewrite <- Htitle |]. split; [exact Htitle |].
  cbn [tasks record set_tasks]. by rewrite Hid.
Qed.

(** ** What one tool call may do to the world *)

Lemma acts_for_refl (uid : Z) (w : World) : acts_for uid w w.
Proof.
  split; [| split].
  - exists []. by rewrite app_nil_r.
  - done.
  - done.
Qed.

Lemma acts_for_trans (uid : Z) (w1 w2 w3 : World) :
  acts_for uid w1 w2 → acts_for uid w2 w3 → acts_for uid w1 w3.
Proof.
  intros ((n1 & Ht1 & Hf1) & Hc1 & Hk1) ((n2 & Ht2 & Hf2) & Hc2 & Hk2).
  split; [| split].
  - exists (n1 ++ n2)%list. split.
    + by rewrite Ht2, Ht1, app_assoc.
    + by apply Forall_app.
  - destruct Hc1 as (? & ? & ? & ? & ?), Hc2 as (? & ? & ? & ? & ?).
    repeat split; congruence.
  - intros Hk. destruct (Hk1 Hk) as [Hk' Hr1]. destruct (Hk2 Hk') as [Hk'' Hr2].
    split; [done | congruence].
Qed.

Lemma acts_for_select (uid : Z) (w : World) : acts_for uid w (record (TaskSelect uid) w).
Proof.
  split; [| split].
  - exists [TaskSelect uid]. split; [done |]. by repeat constructor.
  - done.
  - done.
Qed.

Lemma acts_for_insert (uid : Z) (title description : pyval) (completed : bool)
    (w : World) :
  acts_for uid w (insert_task uid title description completed w).2.
Proof.
  unfold insert_task.
  destruct (title_column title) as [t | e]; [| apply acts_for_refl].
  destruct (description_column description) as [d | e]; [| apply acts_for_refl].
  cbn [snd]. split; [| split].
  - eexists [_]. split; [reflexivity |]. by repeat constructor.
  - done.
  - intros [Hnd Hlt]. split; [split |]; cbn [tasks tasks_seq record set_tasks].
    + rewrite List.map_app. cbn [List.map Task.id].
      apply NoDup_app. split; [done |]. split; [| apply NoDup_singleton].
      intros i Hi Hi'. apply list_elem_of_singleton in Hi'. subst i.
      apply list_elem_of_fmap in Hi as (t' & Hid & Hin).
      rewrite Forall_forall in Hlt. specialize (Hlt t' Hin). lia.
    + apply Forall_app. split.
      * eapply Forall_impl; [exact Hlt |]. cbn. intros; lia.
      * repeat constructor. cbn. lia.
    + unfold foreign_rows. cbn [tasks record set_tasks].
      rewrite List.filter_app. cbn [List.filter Task.user_id].
      rewrite Z.eqb_refl. cbn [negb]. by rewrite app_nil_r.
Qed.

Lemma acts_for_update (uid : Z) (t row : Task.t) (w : World) :
  t ∈ tasks w → Task.user_id t = uid →
  Task.id row = Task.id t → Task.user_id row = uid →
  acts_for uid w (update_row row w).2.
Proof.
  intros Hin Ho Hid Hro. cbn [update_row snd]. split; [| split].
  - eexists [_]. split; [reflexivity |]. repeat constructor. cbn. by f_equal.
  - done.
  - intros [Hnd Hlt].
    assert (Hids : List.map Task.id
                     (List.map (λ x, if Z.eqb (Task.id x) (Task.id row) then row else x)
                               (tasks w))
                   = List.map Task.id (tasks w)).
    { rewrite List.map_map. apply List.map_ext. intros x.
      by destruct (Z.eqb_spec (Task.id x) (Task.id row)) as [-> |]. }
    split; [split |]; cbn [tasks tasks_seq record set_tasks].
    + by rewrite Hids.
    + rewrite Forall_forall in Hlt. apply Forall_forall. intros x Hx.
      apply list_elem_of_fmap in Hx as (y & -> & Hy).
      destruct (Z.eqb_spec (Task.id y) (Task.id row)) as [E |]; [| by apply Hlt].
      rewrite <- E. by apply Hlt.
    + unfold foreign_rows. cbn [tasks record set_tasks].
      apply filter_map_same. intros x Hx.
      destruct (Z.eqb_spec (Task.id x) (Task.id row)) as [E |]; [| by left].
      right. assert (x = t) as -> by (apply (same_id_same_row (tasks w)); congruence).
      rewrite Ho, Hro, Z.eqb_refl. done.
Qed.

Lemma acts_for_delete (uid : Z) (t : Task.t) (w : World) :
  t ∈ tasks w → Task.user_id t = uid → acts_for uid w (delete_row t w).2.
Proof.
  intros Hin Ho. cbn [delete_row snd]. split; [| split].
  - eexists [_]. split; [reflexivity |]. repeat constructor. cbn. by f_equal.
  - done.
  - intros [Hnd Hlt]. split; [split |]; cbn [tasks tasks_seq record set_tasks].
    + apply (NoDup_fmap_2_strong Task.id).
      * intros x y Hx Hy Hxy.
        apply list_elem_of_In, List.filter_In in Hx as [Hx _].
        apply list_elem_of_In, List.filter_In in Hy as [Hy _].
        apply (same_id_same_row (tasks w)); by rewrite ?list_elem_of_In.
      * apply (NoDup_fmap_1 Task.id) in Hnd as Hnd'.
        apply NoDup_ListNoDup, List.NoDup_filter, NoDup_ListNoDup. exact Hnd'.
    + rewrite Forall_forall in Hlt. apply Forall_forall. intros x Hx.
      apply list_elem_of_In, List.filter_In in Hx as [Hx _].
      apply Hlt. by apply list_elem_of_In.
    + unfold foreign_rows. cbn [tasks record set_tasks].
      apply filter_filter_same. intros x Hx.
      destruct (Z.eqb_spec (Task.id x) (Task.id t)) as [E |]; [| by left].
      right. assert (x = t) as -> by (by apply (same_id_same_row (tasks w))).
      by rewrite Ho, Z.eqb_refl.
Qed.

(** ** The five operations, run for the caller *)

Lemma tool_post_raise {A : Type} (uid : Z) (w : World) (e : pyexc) :
  tool_post (A := A) uid w (Raise e, w).
Proof. split; [apply acts_for_refl | done]. Qed.

Lemma tool_post_raise_selected {A : Type} (uid : Z) (w : World) (e : pyexc) :
  tool_post (A := A) uid w (Raise e, record (TaskSelect uid) w).
Proof. split; [apply acts_for_select | done]. Qed.

Lemma tool_post_ok {A : Type} (uid : Z) (w w' : World) (a : A) :
  acts_for uid w w' → tool_post uid w (Ok a, w').
Proof. intros H. split; [done | discriminate]. Qed.

Lemma insert_task_raise (uid : Z) (title description : pyval) (completed : bool)
    (w w' : World) (e : pyexc) :
  insert_task uid title description completed w = (Raise e, w') → w' = w.
Proof.
  unfold insert_task.
  destruct (title_column title); [destruct (description_column description) |];
    intros [= ]; congruence.
Qed.

Lemma add_task_post (params : gmap string pyval) (uid : Z) (w : World) :
  params !! "user_id" = Some (VStr (str_int uid)) →
  tool_post uid w (add_task params w).
Proof.
  intros Hu. unfold add_task. rewrite (getitem_some _ _ _ Hu), bind_ok.
  destruct (getitem params "title") as [title | e];
    [rewrite bind_ok | rewrite bind_raise; apply tool_post_raise].
  rewrite validate_user_str_int, bind_ok.
  destruct (Z.ltb 0 uid); cbn [negb]; [| apply tool_post_raise].
  rewrite py_int_str_int. cbn [reraise_ValueError]. rewrite bind_ok, bind_step.
  pose proof (acts_for_insert uid title (get_default params "description" (VStr "")) false w) as Ha.
  destruct (insert_task _ _ _ _ w) as [[row | e] w1] eqn:E; cbn [snd] in Ha.
  - by apply tool_post_ok.
  - apply insert_task_raise in E as ->. apply tool_post_raise.
Qed.

Lemma list_tasks_post (params : gmap string pyval) (uid : Z) (w : World) :
  params !! "user_id" = Some (VStr (str_int uid)) →
  tool_post uid w (list_tasks params w).
Proof.
  intros Hu. unfold list_tasks. rewrite (getitem_some _ _ _ Hu), bind_ok.
  rewrite validate_user_str_int, bind_ok.
  destruct (Z.ltb 0 uid); cbn [negb]; [| apply tool_post_raise].
  rewrite py_int_str_int. cbn [reraise_ValueError]. rewrite bind_ok.
  apply tool_post_ok, acts_for_select.
Qed.

Lemma complete_task_post (params : gmap string pyval) (uid : Z) (w : World) :
  params !! "user_id" = Some (VStr (str_int uid)) →
  tool_post uid w (complete_task params w).
Proof.
  intros Hu. unfold complete_task. rewrite (getitem_some _ _ _ Hu), bind_ok.
  destruct (getitem params "task_id") as [task_id | e];
    [rewrite bind_ok | rewrite bind_raise; apply tool_post_raise].
  rewrite validate_user_str_int, bind_ok.
  destruct (Z.ltb 0 uid); cbn [negb]; [| apply tool_post_raise].
  rewrite py_int_str_int. cbn [mbind result_bind].
  destruct (reraise_ValueError _ _) as [[u tid] | e] eqn:E;
    [rewrite bind_ok | rewrite bind_raise; apply tool_post_raise].
  apply reraise_ok in E. destruct (py_int task_id); [| discriminate].
  injection E as <- <-. cbn [fst snd].
  rewrite bind_step. unfold select_task_by_id.
  destruct (List.find _ (tasks w)) as [t |] eqn:F; [| apply tool_post_raise_selected].
  apply find_elem in F as [Hin HP]. apply andb_prop in HP as [_ Ho]. apply Z.eqb_eq in Ho.
  apply tool_post_ok. eapply acts_for_trans; [apply acts_for_select |].
  apply (acts_for_update uid t); done.
Qed.

Lemma delete_task_post (params : gmap string pyval) (uid : Z) (w : World) :
  params !! "user_id" = Some (VStr (str_int uid)) →
  tool_post uid w (delete_task params w).
Proof.
  intros Hu. unfold delete_task. rewrite (getitem_some _ _ _ Hu), bind_ok.
  rewrite validate_user_str_int, bind_ok.
  destruct (Z.ltb 0 uid); cbn [negb]; [| apply tool_post_raise].
  rewrite py_int_str_int. cbn [reraise_ValueError]. rewrite bind_ok.
  set (task_title := py_or _ _). set (task_id := get params "task_id").
  rewrite bind_step.
  destruct (is_not_none task_id).
  - destruct (reraise_ValueError (py_int task_id) _) as [tid | e];
      [rewrite bind_ok | rewrite bind_raise; apply tool_post_raise].
    unfold select_task_by_id.
    destruct (List.find _ (tasks w)) as [t |] eqn:F; [| apply tool_post_raise_selected].
    apply find_elem in F as [Hin HP]. apply andb_prop in HP as [_ Ho]. apply Z.eqb_eq in Ho.
    apply tool_post_ok. eapply acts_for_trans; [apply acts_for_select |].
    by apply (acts_for_delete uid t).
  - destruct (is_not_none task_title); [| apply tool_post_raise].
    destruct (escaped task_title) as [pattern | e];
      [rewrite bind_ok | rewrite bind_raise; apply tool_post_raise].
    unfold select_task_by_title.
    destruct (List.find _ (tasks w)) as [t |] eqn:F; [| apply tool_post_raise_selected].
    apply find_elem in F as [Hin HP]. apply andb_prop in HP as [_ Ho]. apply Z.eqb_eq in Ho.
    apply tool_post_ok. eapply acts_for_trans; [apply acts_for_select |].
    by apply (acts_for_delete uid t).
Qed.

Lemma assign_keeps_key (t t' : Task.t) (a b : pyval) :
  assign t a b = Ok t' → Task.id t' = Task.id t ∧ Task.user_id t' = Task.user_id t.
Proof.
  unfold assign. cbn [mbind result_bind mret result_ret].
  destruct (if is_not_none a then _ else _); [| discriminate].
  destruct (if is_not_none b then _ else _); [| discriminate].
  by intros [= <-].
Qed.

Lemma update_found_post (uid : Z) (t : Task.t) (a b : pyval) (w : World) :
  t ∈ tasks w → Task.user_id t = uid →
  tool_post uid w
    (match assign t a b with
     | Ok task =>
         ((_ ← update_row task;
           mret (list_to_map
                   [("task_id", VInt (Task.id task));
                    ("status", VStr "updated");
                    ("title", VStr (Task.title task));
                    ("description", of_option (Task.description task))]))
            : M (gmap string pyval)) (record (TaskSelect uid) w)
     | Raise e => (Raise e, record (TaskSelect uid) w)
     end).
Proof.
  intros Hin Ho. destruct (assign t a b) as [task | e] eqn:E;
    [| apply tool_post_raise_selected].
  apply assign_keeps_key in E as [Hid Hu].
  apply tool_post_ok. eapply acts_for_trans; [apply acts_for_select |].
  apply (acts_for_update uid t); [done | done | done | congruence].
Qed.

Lemma update_task_post (params : gmap string pyval) (uid : Z) (w : World) :
  params !! "user_id" = Some (VStr (str_int uid)) →
  tool_post uid w (update_task params w).
Proof.
  intros Hu. unfold update_task. rewrite (getitem_some _ _ _ Hu), bind_ok.
  rewrite validate_user_str_int, bind_ok.
  destruct (Z.ltb 0 uid); cbn [negb]; [| apply tool_post_raise].
  rewrite py_int_str_int. cbn [reraise_ValueError]. rewrite bind_ok.
  set (task_title := py_or (get params "title_to_find") _).
  set (new_title := py_or (get params "new_title") _).
  set (new_description := py_or (get params "new_description") _).
  set (task_id := get params "task_id").
  rewrite bind_step.
  destruct (is_not_none task_id).
  - destruct (reraise_ValueError (py_int task_id) _) as [tid | e];
      [rewrite bind_ok | rewrite bind_raise; apply tool_post_raise].
    unfold select_task_by_id.
    destruct (List.find _ (tasks w)) as [t |] eqn:F; [| apply tool_post_raise_selected].
    apply find_elem in F as [Hin HP]. apply andb_prop in HP as [_ Ho]. apply Z.eqb_eq in Ho.
    by apply update_found_post.
  - destruct (is_not_none task_title); [| apply tool_post_raise].
    unfold select_task_by_title.
    destruct (List.find _ (tasks w)) as [t |] eqn:F; [| apply tool_post_raise_selected].
    apply find_elem in F as [Hin HP]. apply andb_prop in HP as [_ Ho]. apply Z.eqb_eq in Ho.
    by apply update_found_post.
Qed.

Lemma tool_post_summary {A : Type} (uid : Z) (w : World) (m : M A) (g : A → string) :
  tool_post uid w (m w) → tool_post uid w ((a ← m; mret (g a)) w).
Proof.
  intros [Ha Hr]. rewrite bind_step.
  destruct (m w) as [[a | e] w1]; cbn [fst snd] in *.
  - by apply tool_post_ok.
  - split; [done |]. intros e' _. by apply (Hr e).
Qed.

Lemma run_tool_post (function_name : string) (params : gmap string pyval) (uid : Z)
    (w : World) :
  params !! "user_id" = Some (VStr (str_int uid)) →
  tool_post uid w (run_tool function_name params w).
Proof.
  intros Hu. unfold run_tool.
  repeat (case (String.eqb function_name _);
          [apply tool_post_summary;
           auto using add_task_post, list_tasks_post, complete_task_post,
                      delete_task_post, update_task_post |]).
  apply tool_post_ok, acts_for_refl.
Qed.

Lemma summary_nonempty {A : Type} (m : M A) (prefix : ascii) (rest : string)
    (g : A → string) (w w' : World) (line : string) :
  (a ← m; mret (String prefix rest +:+ g a)) w = (Ok line, w') → line ≠ "".
Proof.
  rewrite bind_step. destruct (m w) as [[a | e] w1]; [| discriminate].
  intros [= <- _]. discriminate.
Qed.

Lemma run_tool_line_nonempty (function_name : string) (params : gmap string pyval)
    (w w' : World) (line : string) :
  run_tool function_name params w = (Ok line, w') → line ≠ "".
Proof.
  unfold run_tool.
  repeat (case (String.eqb function_name _); [apply summary_nonempty |]).
  intros [= <- _]. discriminate.
Qed.

(** ** A batch of tool calls *)

Lemma execute_tool_call_spec (c : tool_call) (u : User.t) (w : World) :
  ∃ line w',
    execute_tool_call c u w = (Ok line, w')
    ∧ line ≠ ""
    ∧ acts_for (User.id u) w w'
    ∧ match run_tool (function_name c) (caller_arguments c u) w with
      | (Ok l, w1) => line = l ∧ w' = w1
      | (Raise e, w1) =>
          line = "Error executing " +:+ function_name c +:+ ": " +:+ str_exc e
          ∧ w' = w1 ∧ forget_trace w1 = forget_trace w
      end.
Proof.
  unfold execute_tool_call, try_except. fold (caller_arguments c u).
  pose proof (run_tool_post (function_name c) (caller_arguments c u) (User.id u) w
                (lookup_insert_eq _ _ _)) as [Ha Hr].
  pose proof (run_tool_line_nonempty (function_name c) (caller_arguments c u) w) as Hn.
  destruct (run_tool _ _ w) as [[l | e] w1]; cbn [fst snd] in *.
  - exists l, w1. split; [reflexivity |]. split; [by apply (Hn w1) |].
    split; [exact Ha | done].
  - eexists _, w1. split; [reflexivity |]. split; [discriminate |].
    split; [exact Ha |]. split; [reflexivity |]. split; [reflexivity |].
    by apply (Hr e).
Qed.

Lemma tool_call_results_spec (calls : list tool_call) (u : User.t) :
  ∀ w, ∃ results w',
    tool_call_results calls u w = (Ok results, w')
    ∧ length results = length calls
    ∧ Forall (λ line, line ≠ "") results
    ∧ acts_for (User.id u) w w'.
Proof.
  induction calls as [| c calls IH]; intros w.
  - exists [], w. split; [reflexivity |]. split; [reflexivity |].
    split; [constructor | apply acts_for_refl].
  - destruct (execute_tool_call_spec c u w) as (line & w1 & E1 & Hn & Ha1 & _).
    destruct (IH w1) as (rs & w2 & E2 & Hl & Hf & Ha2).
    exists (line :: rs), w2. split; [| split; [| split]].
    + cbn [tool_call_results]. rewrite bind_step, E1, bind_step, E2. reflexivity.
    + cbn. by rewrite Hl.
    + by constructor.
    + by apply (acts_for_trans _ w w1 w2).
Qed.



(** A batch whose second call fails: the first and the third still write. *)
Example partial_failure_batch :
  let batch :=
    [ {| call_id := "a"; function_name := "add_task";
         arguments := list_to_map [("title", VStr "Groceries")] |};
      {| call_id := "b"; function_name := "complete_task";
         arguments := list_to_map [("task_id", VInt 999)] |};
      {| call_id := "c"; function_name := "complete_task";
         arguments := list_to_map [("task_id", VInt 1)] |} ] in
  (execute_tool_calls batch alice sample_world).1
  = Ok ("Added task: Groceries; " +:+
        "Error executing complete_task: Task 999 not found for user 1; " +:+
        "Completed task: axb")
  ∧ tasks (execute_tool_calls batch alice sample_world).2
    = [Task.mk 1 1 "axb" (Some "first") true;
       Task.mk 2 2 "Buy MILK" None true;
       Task.mk 3 1 "Pay rent" None true;
       Task.mk 4 1 "Groceries" (Some "") false].
Proof. split; reflexivity. Qed.





(** The forged batch adds the task for user 1 and finds nothing to delete:
    user 2's task is out of reach by id and by title. *)
Example forged_batch_reply :
  (execute_tool_calls forged_batch alice sample_world).1
  = Ok ("Added task: Groceries; " +:+
        "Error executing delete_task: Task 2 not found for user 1; " +:+
        "Error executing delete_task: Task with title 'buy milk' not found for user 1")
  ∧ tasks (execute_tool_calls forged_batch alice sample_world).2
    = (tasks sample_world ++ [Task.mk 4 1 "Groceries" (Some "") false])%list.
Proof. split; reflexivity. Qed.

(** ** Exceptions in the reply *)

(** A failed completion call is answered by one fixed sentence, whatever
    the exception was. *)
Lemma process_message_failure_is_opaque
    (api : list turn → api_reply) (user_id message : string) (history : list turn)
    (e : pyexc) (w : World) :
  api (history ++ [("user", message)])%list = ApiFailure e →
  process_message api user_id message history w
  = (Ok (AiError "Sorry, I encountered an error processing your request. Please try again."),
     record (Completion (history ++ [("user", message)])%list) w).
Proof.
  intros H. unfold process_message, try_except, run_conversation.
  rewrite bind_step. cbn [log_event]. unfold pure. by rewrite H.
Qed.

(** The line of a call whose tool raised carries the text of the
    exception. *)
Lemma failed_call_line (c : tool_call) (u : User.t) (w w1 : World) (e : pyexc) :
  run_tool (function_name c) (caller_arguments c u) w = (Raise e, w1) →
  execute_tool_call c u w
  = (Ok ("Error executing " +:+ function_name c +:+ ": " +:+ str_exc e), w1).
Proof.
  intros H. unfold execute_tool_call, try_except. fold (caller_arguments c u).
  by rewrite H.
Qed.

(** C4. The reply of a turn can carry the text of an internal exception:
    when the model leaves the title out of an [add_task] call, the
    [KeyError] raised by [params["title"]] is caught by the dispatcher and
    its text, ['title'], is returned to the user inside the reply. *)
Theorem reply_carries_exception_text :
  (add_task (list_to_map [("user_id", VStr "1"); ("description", VStr "two litres")])
     sample_world).1
  = Raise (KeyError "title")
  ∧ (chat_endpoint api_add_without_title "1"
       {| message := "Add milk"; conversation_id := None |} alice sample_world).1
    = Ok {| response_conversation_id := 1;
            response := "I've processed your request. Error executing add_task: "
                        +:+ str_exc (KeyError "title");
            response_tool_calls := [] |}.
Proof. split; reflexivity. Qed.

(** ** The trace does not steer the tools *)


























(** ** The history sent to the completion endpoint *)

Lemma order_by_ascending (l : list Message.t) :
  ascending l → order_by_created_at l = l.
Proof.
  induction l as [| m l IH]; [done |]. intros [Hm Hl].
  unfold order_by_created_at in *. cbn [List.fold_right]. rewrite (IH Hl).
  destruct l as [| x l]; [done |]. cbn [insert_by_created_at].
  apply Forall_cons in Hm as [Hx _].
  by rewrite (proj2 (Z.leb_le _ _) Hx).
Qed.

Lemma ascending_filter (P : Message.t → bool) (l : list Message.t) :
  ascending l → ascending (List.filter P l).
Proof.
  induction l as [| m l IH]; [done |]. intros [Hm Hl]. cbn [List.filter].
  destruct (P m); [| by apply IH]. split; [| by apply IH].
  apply Forall_forall. intros x Hx.
  apply list_elem_of_In, List.filter_In in Hx as [Hx _].
  rewrite Forall_forall in Hm. apply Hm. by apply list_elem_of_In.
Qed.

Lemma ascending_snoc (l : list Message.t) (m : Message.t) :
  ascending l → Forall (λ x, Message.created_at x ≤ Message.created_at m) l →
  ascending (l ++ [m]).
Proof.
  induction l as [| x l IH]; [done |]. intros [Hx Hl] Hm.
  apply Forall_cons in Hm as [Hxm Hm]. split; [| by apply IH].
  apply Forall_app. split; [done |]. by repeat constructor.
Qed.

Lemma removelast_firstn_snoc {A : Type} (n : nat) (l : list A) (x : A) :
  List.removelast (List.firstn (S n) (l ++ [x])) = List.firstn n l.
Proof.
  destruct (Nat.le_gt_cases (length l) n) as [H | H].
  - rewrite List.firstn_all2 by (rewrite List.length_app; cbn; lia).
    rewrite List.removelast_last. by rewrite List.firstn_all2.
  - rewrite List.firstn_app.
    replace (S n - length l)%nat with 0%nat by lia.
    cbn [List.firstn]. rewrite app_nil_r.
    by apply List.removelast_firstn.
Qed.

Lemma removelast_map {A B : Type} (f : A → B) (l : list A) :
  List.removelast (List.map f l) = List.map f (List.removelast l).
Proof.
  induction l as [| a l IH]; [done |]. destruct l as [| b l]; [done |].
  cbn [List.map List.removelast] in *. by rewrite IH.
Qed.

Lemma process_message_trace (api : list turn → api_reply) (user_id message : string)
    (history : list turn) (w : World) :
  ∃ r, process_message api user_id message history w
       = (Ok r, record (Completion (history ++ [("user", message)])%list) w).
Proof.
  unfold process_message, try_except, run_conversation.
  rewrite bind_step. cbn [log_event]. unfold pure.
  destruct (api _) as [e | content calls]; [eauto |].
  destruct (_process_response content calls); eauto.
Qed.

Lemma get_or_create_found (cid uid : Z) (c : Conversation.t) (w : World) :
  cid ≠ 0 →
  List.find (λ c, Z.eqb (Conversation.id c) cid && Z.eqb (Conversation.user_id c) uid)
            (conversations w) = Some c →
  get_or_create_conversation (Some cid) uid w = (Ok c, record (ConversationSelect uid) w).
Proof.
  intros Hc Hf. unfold get_or_create_conversation.
  rewrite (proj2 (Z.eqb_neq _ _) Hc), bind_step. unfold get_conversation. by rewrite Hf.
Qed.

Lemma no_completion_among_task_events (uid : Z) (new : list event) :
  Forall (λ e, event_owner e = Some uid) new →
  omap (λ e, match e with Completion messages => Some messages | _ => None end) new = [].
Proof.
  induction 1 as [| e new He _ IH]; [done |]. cbn. rewrite IH.
  by destruct e.
Qed.

Lemma completion_requests_record (e : event) (w : World) :
  completion_requests (record e w)
  = (completion_requests w
     ++ match e with Completion messages => [messages] | _ => [] end)%list.
Proof.
  unfold completion_requests. cbn [trace record]. rewrite omap_app. by destruct e.
Qed.

Lemma history_query (cid uid : Z) (role content : string) (w : World) :
  stamped w →
  let prior := List.filter (λ m, Z.eqb (Message.conversation_id m) cid &&
                                 Z.eqb (Message.user_id m) uid) (messages w) in
  ∃ w1 new w2,
    add_message cid uid role content w = (Ok new, w1)
    ∧ get_conversation_history cid uid 50 w1 = (Ok (List.firstn 50 (prior ++ [new])), w2)
    ∧ completion_requests w2 = completion_requests w
    ∧ turn_of new = (role, content).
Proof.
  intros [Hasc Hclk] prior.
  eexists _, _, _. split; [reflexivity |]. split; [| split; [| reflexivity]].
  - unfold get_conversation_history. cbn [messages record set_messages set_clock].
    rewrite List.filter_app. cbn [List.filter Message.conversation_id Message.user_id].
    rewrite !Z.eqb_refl. cbn [andb]. fold prior.
    rewrite order_by_ascending; [reflexivity |].
    apply ascending_snoc; [by apply ascending_filter |].
    apply Forall_forall. intros x Hx. cbn [Message.created_at].
    apply list_elem_of_In, List.filter_In in Hx as [Hx _].
    rewrite Forall_forall in Hclk. apply Hclk. by apply list_elem_of_In.
  - by rewrite !completion_requests_record, !app_nil_r.
Qed.

Lemma respond_adds_no_request (cid uid : Z) (content : string) (w : World) :
  ∃ m w1 w2,
    add_message cid uid "assistant" content w = (Ok m, w1)
    ∧ update_conversation_timestamp cid w1 = (Ok tt, w2)
    ∧ completion_requests w2 = completion_requests w.
Proof.
  eexists _, _. unfold update_conversation_timestamp.
  destruct (List.find _ _); eexists; (split; [reflexivity |]);
    (split; [reflexivity |]); unfold completion_requests;
    cbn [trace record set_clock set_conversations set_messages];
    rewrite !omap_app; cbn [omap list_omap]; by rewrite !app_nil_r.
Qed.

(** The request of a turn in an existing conversation: the first 49
    messages stored for it before the turn, then the message of the
    turn. *)
Theorem chat_endpoint_request
    (api : list turn → api_reply) (chat_request : ChatRequest) (current_user : User.t)
    (cid : Z) (c : Conversation.t) (w : World) :
  conversation_id chat_request = Some cid → cid ≠ 0 →
  List.find (λ c, Z.eqb (Conversation.id c) cid &&
                  Z.eqb (Conversation.user_id c) (User.id current_user))
            (conversations w) = Some c →
  stamped w →
  let prior := List.filter (λ m, Z.eqb (Message.conversation_id m) cid &&
                                 Z.eqb (Message.user_id m) (User.id current_user))
                           (messages w) in
  completion_requests
    (chat_endpoint api (str_int (User.id current_user)) chat_request current_user w).2
  = (completion_requests w
     ++ [List.map turn_of (List.firstn 49 prior) ++ [("user", message chat_request)]])%list.
Proof.
  intros Hreq Hcid Hfind Hst prior.
  assert (Hc : Conversation.id c = cid).
  { apply List.find_some in Hfind as [_ H]. apply andb_prop in H as [H _].
    by apply Z.eqb_eq. }
  unfold chat_endpoint. rewrite String.eqb_refl. cbn [negb]. unfold try_except.
  rewrite Hreq, bind_step, (get_or_create_found _ _ _ _ Hcid Hfind), Hc.
  assert (Hst1 : stamped (record (ConversationSelect (User.id current_user)) w)) by done.
  destruct (history_query cid (User.id current_user) "user" (message chat_request) _ Hst1)
    as (w1 & new & w2 & E1 & E2 & Hreqs & Hturn).
  cbn [messages record] in E2. fold prior in E2.
  rewrite bind_step, E1, bind_step, E2.
  rewrite removelast_map, (removelast_firstn_snoc 49).
  destruct (process_message_trace api (str_int (User.id current_user))
              (message chat_request)
              (List.map (λ msg, (Message.role msg, Message.content msg))
                        (List.firstn 49 prior)) w2) as [r E3].
  rewrite bind_step, E3.
  set (w3 := record (Completion _) w2).
  assert (H3 : completion_requests w3
               = (completion_requests w
                  ++ [List.map turn_of (List.firstn 49 prior)
                      ++ [("user", message chat_request)]])%list).
  { unfold w3. rewrite completion_requests_record, Hreqs.
    by rewrite completion_requests_record, app_nil_r. }
  rewrite bind_step.
  assert (∃ content w4,
            (match r with
             | AiToolCalls tool_calls _ =>
                 tool_execution_result ← execute_tool_calls tool_calls current_user;
                 mret ("I've processed your request. " +:+ tool_execution_result)
             | AiMessage content | AiError content => mret content
             end : M string) w3 = (Ok content, w4)
            ∧ completion_requests w4 = completion_requests w3)
    as (content & w4 & -> & H4).
  { destruct r as [calls ? | content | content]; [| by eexists _, _ ..].
    destruct (tool_call_results_spec calls current_user w3)
      as (results & w4 & E & _ & _ & (evs & Ht & Hev) & _).
    exists ("I've processed your request. " +:+ join "; " results), w4. split.
    - unfold execute_tool_calls. rewrite !bind_step, E. reflexivity.
    - unfold completion_requests. rewrite Ht, omap_app.
      by rewrite (no_completion_among_task_events _ _ Hev), app_nil_r. }
  destruct (respond_adds_no_request cid (User.id current_user) content w4)
    as (m & w5 & w6 & E5 & E6 & H6).
  rewrite bind_step, E5, bind_step, E6. cbn [snd mret M_ret].
  by rewrite H6, H4, H3.
Qed.

(** X15. While the conversation holds at most 49 messages before the turn, the
    request carries all of them, oldest first, and the new message once,
    at the end. *)
Corollary chat_endpoint_request_short
    (api : list turn → api_reply) (chat_request : ChatRequest) (current_user : User.t)
    (cid : Z) (c : Conversation.t) (w : World) :
  conversation_id chat_request = Some cid → cid ≠ 0 →
  List.find (λ c, Z.eqb (Conversation.id c) cid &&
                  Z.eqb (Conversation.user_id c) (User.id current_user))
            (conversations w) = Some c →
  stamped w →
  let prior := List.filter (λ m, Z.eqb (Message.conversation_id m) cid &&
                                 Z.eqb (Message.user_id m) (User.id current_user))
                           (messages w) in
  (length prior ≤ 49)%nat →
  completion_requests
    (chat_endpoint api (str_int (User.id current_user)) chat_request current_user w).2
  = (completion_requests w
     ++ [List.map turn_of prior ++ [("user", message chat_request)]])%list.
Proof.
  intros Hreq Hcid Hfind Hst prior Hlen.
  rewrite (chat_endpoint_request api chat_request current_user cid c w Hreq Hcid Hfind Hst).
  fold prior. by rewrite (List.firstn_all2 prior Hlen).
Qed.

Lemma chat_endpoint_request_short_witness :
  completion_requests
    (chat_endpoint api_plain_answer "1"
       {| message := "What is on my list?"; conversation_id := Some 1 |}
       alice short_conversation).2
  = [[("user", "hello"); ("assistant", "Hi, how can I help?");
      ("user", "What is on my list?")]].
Proof.
  apply (chat_endpoint_request_short api_plain_answer
           {| message := "What is on my list?"; conversation_id := Some 1 |}
           alice 1 (Conversation.mk 1 1 0 3) short_conversation).
  - reflexivity.
  - lia.
  - reflexivity.
  - split.
    + cbn. repeat split; repeat constructor; cbn; lia.
    + repeat constructor; cbn; lia.
  - cbn. lia.
Defined.

(** C5. With 50 messages stored in the conversation, the next turn stores
    its message as the 51st, reads the 50 oldest and drops the last of
    them: the request carries the first 49 stored messages and then the new
    message.  The 50th stored message, the latest reply, is not sent,
    although it is one of the first k−1 messages of turn k = 51. *)
Theorem history_drops_latest_stored_message :
  let w' := (chat_endpoint api_down "1"
               {| message := "What is left?"; conversation_id := Some 1 |}
               alice long_conversation).2 in
  completion_requests w'
  = [(List.map turn_of (List.firstn 49 (messages long_conversation))
      ++ [("user", "What is left?")])%list]
  ∧ length (messages long_conversation) = 50%nat
  ∧ List.nth_error (messages w') 50
    = Some (Message.mk 51 1 1 "user" "What is left?" 51)
  ∧ ∀ request, request ∈ completion_requests w' →
               ("assistant", "message 50") ∉ request.
Proof.
  cbv zeta. split; [vm_compute; reflexivity |].
  split; [reflexivity |]. split; [vm_compute; reflexivity |].
  apply Forall_forall. apply (bool_decide_unpack _). vm_compute. exact I.
Qed.

(** ** The endpoint always answers *)

Lemma returns_ret {A : Type} (a : A) : returns (mret a : M A).
Proof. intros w. by exists a, w. Qed.

Lemma returns_bind {A B : Type} (m : M A) (f : A → M B) :
  returns m → (∀ a, returns (f a)) → returns (m ≫= f).
Proof.
  intros Hm Hf w. destruct (Hm w) as (a & w1 & E).
  destruct (Hf a w1) as (b & w2 & E'). exists b, w2.
  by rewrite bind_step, E.
Qed.

Lemma returns_create_conversation (uid : Z) : returns (create_conversation uid).
Proof. intros w. by eexists _, _. Qed.

Lemma returns_get_or_create_conversation (conversation_id : option Z) (uid : Z) :
  returns (get_or_create_conversation conversation_id uid).
Proof.
  unfold get_or_create_conversation.
  destruct conversation_id as [cid |]; [| apply returns_create_conversation].
  destruct (Z.eqb cid 0); [apply returns_create_conversation |].
  apply returns_bind; [intros w; by eexists _, _ |].
  intros [c |]; [apply returns_ret | apply returns_create_conversation].
Qed.

Lemma returns_add_message (cid uid : Z) (role content : string) :
  returns (add_message cid uid role content).
Proof. intros w. by eexists _, _. Qed.

Lemma returns_get_conversation_history (cid uid : Z) (limit : nat) :
  returns (get_conversation_history cid uid limit).
Proof. intros w. by eexists _, _. Qed.

Lemma returns_process_message (api : list turn → api_reply) (user_id message : string)
    (history : list turn) :
  returns (process_message api user_id message history).
Proof. intros w. destruct (process_message_trace api user_id message history w); eauto. Qed.

Lemma returns_execute_tool_calls (calls : list tool_call) (u : User.t) :
  returns (execute_tool_calls calls u).
Proof.
  intros w. destruct (tool_call_results_spec calls u w) as (rs & w' & E & _).
  exists (join "; " rs), w'. unfold execute_tool_calls. by rewrite bind_step, E.
Qed.

Lemma returns_update_conversation_timestamp (cid : Z) :
  returns (update_conversation_timestamp cid).
Proof.
  intros w. unfold update_conversation_timestamp.
  destruct (List.find _ _); by eexists _, _.
Qed.

(** Past the authorization gate the endpoint always answers: no failure of
    the completion call or of a tool call turns into an HTTP error. *)
Theorem chat_endpoint_replies
    (api : list turn → api_reply) (chat_request : ChatRequest) (current_user : User.t) :
  returns (chat_endpoint api (str_int (User.id current_user)) chat_request current_user).
Proof.
  unfold chat_endpoint. rewrite String.eqb_refl. cbn [negb].
  intros w. unfold try_except.
  match goal with |- context [match ?body w with _ => _ end] =>
    assert (Hb : returns body) end.
  { apply returns_bind; [apply returns_get_or_create_conversation | intros c].
    apply returns_bind; [apply returns_add_message | intros m].
    apply returns_bind; [apply returns_get_conversation_history | intros h].
    apply returns_bind; [apply returns_process_message | intros r].
    apply returns_bind.
    { destruct r; [| apply returns_ret ..].
      apply returns_bind; [apply returns_execute_tool_calls | intros; apply returns_ret]. }
    intros content.
    apply returns_bind; [apply returns_add_message | intros m'].
    apply returns_bind; [apply returns_update_conversation_timestamp | intros].
    apply returns_ret. }
  destruct (Hb w) as (a & w' & ->). by exists a, w'.
Qed.

(** The scenario of the specification: one [add_task] call, and the reply
    that comes back. *)
Example groceries_turn :
  (chat_endpoint api_add_groceries "1"
     {| message := "Create a task called 'Groceries'"; conversation_id := None |}
     alice sample_world).1
  = Ok {| response_conversation_id := 1;
          response := "I've processed your request. Added task: Groceries";
          response_tool_calls := [] |}.
Proof. reflexivity. Qed.

(** ** What the reply says when something fails *)

Lemma returns_yields {A : Type} (m : M A) : returns m → yields m (λ _, True).
Proof. intros H w. destruct (H w) as (a & w' & E). by exists a, w'. Qed.

Lemma yields_ret {A : Type} (a : A) (P : A → Prop) : P a → yields (mret a : M A) P.
Proof. intros H w. by exists a, w. Qed.

Lemma yields_bind {A B : Type} (m : M A) (f : A → M B) (P : A → Prop) (Q : B → Prop) :
  yields m P → (∀ a, P a → yields (f a) Q) → yields (m ≫= f) Q.
Proof.
  intros Hm Hf w. destruct (Hm w) as (a & w1 & E & Ha).
  destruct (Hf a Ha w1) as (b & w2 & E' & Hb). exists b, w2.
  by rewrite bind_step, E.
Qed.

Lemma process_message_apologises (api : list turn → api_reply) (user_id message : string)
    (history : list turn) :
  (∀ messages, ∃ e, api messages = ApiFailure e) →
  yields (process_message api user_id message history) (λ r, r = AiError apology).
Proof.
  intros Hapi w. destruct (Hapi (history ++ [("user", message)])%list) as [e He].
  eexists _, _. split; [| reflexivity].
  by apply (process_message_failure_is_opaque api user_id message history e w).
Qed.

(** X19. What the reply says when something fails: a turn whose completion
    call fails is answered by the fixed sentence, and a call whose tool
    raises is reported by its name and the message of the exception. *)
Theorem failure_replies
    (api : list turn → api_reply) (chat_request : ChatRequest) (current_user : User.t)
    (w : World) (c : tool_call) (w0 : World) :
  ((∀ messages, ∃ e, api messages = ApiFailure e) →
   ∃ reply w',
     chat_endpoint api (str_int (User.id current_user)) chat_request current_user w
     = (Ok reply, w')
     ∧ response reply = apology)
  ∧ (∀ e w1,
       run_tool (function_name c) (caller_arguments c current_user) w0 = (Raise e, w1) →
       execute_tool_call c current_user w0
       = (Ok ("Error executing " +:+ function_name c +:+ ": " +:+ str_exc e), w1)).
Proof.
  split; [| intros e w1; apply failed_call_line].
  intros Hapi. unfold chat_endpoint. rewrite String.eqb_refl. cbn [negb].
  unfold try_except.
  match goal with |- context [match ?body w with _ => _ end] =>
    assert (Hb : yields body (λ reply, response reply = apology)) end.
  { eapply yields_bind;
      [apply returns_yields, returns_get_or_create_conversation | intros conv _].
    eapply yields_bind; [apply returns_yields, returns_add_message | intros m _].
    eapply yields_bind;
      [apply returns_yields, returns_get_conversation_history | intros h _].
    eapply yields_bind; [by apply process_message_apologises | intros r ->].
    eapply yields_bind; [by apply (yields_ret apology (λ s, s = apology)) | intros s ->].
    eapply yields_bind; [apply returns_yields, returns_add_message | intros m' _].
    eapply yields_bind;
      [apply returns_yields, returns_update_conversation_timestamp | intros [] _].
    by apply yields_ret. }
  destruct (Hb w) as (reply & w' & -> & Hr). by exists reply, w'.
Qed.

Lemma failure_replies_witness :
  (∃ reply w',
     chat_endpoint api_down "1" {| message := "Add milk"; conversation_id := None |}
       alice sample_world = (Ok reply, w')
     ∧ response reply = apology)
  ∧ execute_tool_call
      {| call_id := "call_1"; function_name := "complete_task";
         arguments := list_to_map [("task_id", VInt 2)] |} alice sample_world
    = (Ok "Error executing complete_task: Task 2 not found for user 1",
       record (TaskSelect 1) sample_world).
Proof.
  destruct (failure_replies api_down
              {| message := "Add milk"; conversation_id := None |} alice sample_world
              {| call_id := "call_1"; function_name := "complete_task";
                 arguments := list_to_map [("task_id", VInt 2)] |} sample_world)
    as [Hturn Hcall].
  split.
  - apply Hturn. intros messages. eexists. reflexivity.
  - apply (Hcall (ValueError "Task 2 not found for user 1")
                 (record (TaskSelect 1) sample_world)).
    vm_compute. reflexivity.
Defined.

(** ** Listing by status *)





(** ** A task addressed by id *)

Lemma find_no_owned_row (tid uid : Z) (l : list Task.t) :
  (∀ t, t ∈ l → Task.id t = tid → Task.user_id t ≠ uid) →
  List.find (λ t, Z.eqb (Task.id t) tid && Z.eqb (Task.user_id t) uid) l = None.
Proof.
  intros H. destruct (List.find _ l) as [t |] eqn:E; [| done].
  apply find_elem in E as [Hin HP]. apply andb_prop in HP as [Hi Ho].
  apply Z.eqb_eq in Hi, Ho. by destruct (H t Hin Hi).
Qed.

Lemma complete_task_by_id (params : gmap string pyval) (user_id task_id : pyval)
    (uid tid : Z) (w : World) :
  params !! "user_id" = Some user_id → py_int user_id = Ok uid → 0 < uid →
  params !! "task_id" = Some task_id → py_int task_id = Ok tid →
  complete_task params w
  = match List.find (λ t, Z.eqb (Task.id t) tid && Z.eqb (Task.user_id t) uid) (tasks w) with
    | Some row =>
        (Ok (completed_result (with_completed row true)),
         (update_row (with_completed row true) (record (TaskSelect uid) w)).2)
    | None => (Raise (not_found_by_id task_id user_id), record (TaskSelect uid) w)
    end.
Proof.
  intros Hu Hui Hpos Ht Hti. unfold complete_task.
  rewrite (getitem_some _ _ _ Hu), bind_ok, (getitem_some _ _ _ Ht), bind_ok.
  rewrite (validate_user_positive _ _ Hui Hpos), bind_ok. cbn [negb].
  rewrite Hui, Hti. cbn [mbind result_bind mret result_ret reraise_ValueError].
  rewrite bind_ok, bind_step. unfold select_task_by_id. cbn [fst snd].
  by destruct (List.find _ (tasks w)).
Qed.

(** X2. A task id that the caller does not own is a task id that does not
    exist: [complete_task], [delete_task] and [update_task] raise the same
    "not found" error, built from the parameters alone, whether the id
    belongs to another user or to nobody, and the tables stay as they
    were. *)
Theorem task_of_another_user_is_not_found
    (params : gmap string pyval) (user_id task_id : pyval) (uid tid : Z) (w : World) :
  params !! "user_id" = Some user_id → py_int user_id = Ok uid → 0 < uid →
  params !! "task_id" = Some task_id → py_int task_id = Ok tid →
  (∀ t, t ∈ tasks w → Task.id t = tid → Task.user_id t ≠ uid) →
  complete_task params w = (Raise (not_found_by_id task_id user_id), record (TaskSelect uid) w)
  ∧ delete_task params w = (Raise (not_found_by_id task_id user_id), record (TaskSelect uid) w)
  ∧ update_task params w = (Raise (not_found_by_id task_id user_id), record (TaskSelect uid) w)
  ∧ forget_trace (record (TaskSelect uid) w) = forget_trace w.
Proof.
  intros Hu Hui Hpos Ht Hti Hnone.
  pose proof (find_no_owned_row tid uid (tasks w) Hnone) as Hf.
  split; [| split; [| split]].
  - by rewrite (complete_task_by_id params user_id task_id uid tid w), Hf.
  - by rewrite (delete_task_by_id params user_id task_id uid tid w), Hf.
  - by apply (update_task_by_id params user_id task_id uid tid w).
  - reflexivity.
Qed.

Lemma task_of_another_user_is_not_found_witness :
  let params : gmap string pyval :=
    list_to_map [("user_id", VStr "1"); ("task_id", VInt 2); ("title", VStr "mine now")] in
  complete_task params sample_world
  = (Raise (not_found_by_id (VInt 2) (VStr "1")), record (TaskSelect 1) sample_world)
  ∧ delete_task params sample_world
    = (Raise (not_found_by_id (VInt 2) (VStr "1")), record (TaskSelect 1) sample_world)
  ∧ update_task params sample_world
    = (Raise (not_found_by_id (VInt 2) (VStr "1")), record (TaskSelect 1) sample_world)
  ∧ forget_trace (record (TaskSelect 1) sample_world) = forget_trace sample_world.
Proof.
  intros params.
  apply (task_of_another_user_is_not_found params (VStr "1") (VInt 2) 1 2 sample_world).
  - reflexivity.
  - reflexivity.
  - lia.
  - reflexivity.
  - reflexivity.
  - apply (proj1 (Forall_forall (λ t, Task.id t = 2 → Task.user_id t ≠ 1)
                    (tasks sample_world))).
    apply (bool_decide_unpack _). vm_compute. exact I.
Defined.

(** ** Completing, in general *)

Lemma with_completed_twice (t : Task.t) (b : bool) :
  with_completed (with_completed t b) b = with_completed t b.
Proof. reflexivity. Qed.

Lemma rewrite_row (l : list Task.t) (t row : Task.t) :
  NoDup (List.map Task.id l) → t ∈ l → Task.id row = Task.id t →
  NoDup (List.map Task.id
           (List.map (λ x, if Z.eqb (Task.id x) (Task.id row) then row else x) l))
  ∧ row ∈ List.map (λ x, if Z.eqb (Task.id x) (Task.id row) then row else x) l.
Proof.
  intros Hnd Hin Hid. split.
  - rewrite List.map_map.
    rewrite (List.map_ext _ Task.id); [done |].
    intros x. by destruct (Z.eqb_spec (Task.id x) (Task.id row)) as [-> |].
  - apply list_elem_of_fmap. exists t. by rewrite Hid, Z.eqb_refl.
Qed.

(** X3. [complete_task] on a task of the caller sets the flag of that row and
    of no other, keeps its title and description, and a second call
    returns the same result and leaves the table as the first call left
    it. *)
Theorem complete_task_twice
    (params : gmap string pyval) (user_id task_id : pyval) (t : Task.t) (w : World) :
  NoDup (List.map Task.id (tasks w)) →
  t ∈ tasks w →
  params !! "user_id" = Some user_id →
  py_int user_id = Ok (Task.user_id t) →
  0 < Task.user_id t →
  params !! "task_id" = Some task_id →
  py_int task_id = Ok (Task.id t) →
  ∃ w1 w2,
    complete_task params w = (Ok (completed_result t), w1)
    ∧ tasks w1 = List.map (λ x, if Z.eqb (Task.id x) (Task.id t)
                                then with_completed t true else x) (tasks w)
    ∧ complete_task params w1 = (Ok (completed_result t), w2)
    ∧ tasks w2 = tasks w1.
Proof.
  intros Hnd Hin Hu Hui Hpos Hk Hki.
  pose proof (complete_task_by_id params user_id task_id (Task.user_id t) (Task.id t)
                w Hu Hui Hpos Hk Hki) as E1.
  rewrite (find_by_key _ _ Hnd Hin) in E1.
  destruct (rewrite_row (tasks w) t (with_completed t true) Hnd Hin eq_refl) as [Hnd1 Hin1].
  eexists _, _. split; [exact E1 |]. split; [reflexivity |].
  cbn [update_row snd tasks record set_tasks Task.id with_completed] in *.
  pose proof (complete_task_by_id params user_id task_id (Task.user_id t) (Task.id t)
                (record (TaskUpdate (with_completed t true))
                   (set_tasks
                      (List.map (λ x, if Z.eqb (Task.id x) (Task.id t)
                                      then with_completed t true else x) (tasks w))
                      (tasks_seq w) (record (TaskSelect (Task.user_id t)) w)))
                Hu Hui Hpos Hk Hki) as E2.
  cbn [tasks record set_tasks] in E2.
  pose proof (find_by_key _ (with_completed t true) Hnd1 Hin1) as F.
  cbn [with_completed Task.id Task.user_id] in F. rewrite F in E2.
  split; [exact E2 |].
  cbn [update_row snd tasks record set_tasks with_completed Task.id].
  by apply (rewrite_same_row _ (with_completed t true)).
Qed.

Lemma complete_task_twice_witness :
  ∃ w1 w2,
    complete_task (list_to_map [("user_id", VStr "1"); ("task_id", VStr "1")]) sample_world
    = (Ok (completed_result (Task.mk 1 1 "axb" (Some "first") false)), w1)
    ∧ tasks w1 = List.map (λ x, if Z.eqb (Task.id x) 1
                                then Task.mk 1 1 "axb" (Some "first") true else x)
                          (tasks sample_world)
    ∧ complete_task (list_to_map [("user_id", VStr "1"); ("task_id", VStr "1")]) w1
      = (Ok (completed_result (Task.mk 1 1 "axb" (Some "first") false)), w2)
    ∧ tasks w2 = tasks w1.
Proof.
  apply (complete_task_twice
           (list_to_map [("user_id", VStr "1"); ("task_id", VStr "1")])
           (VStr "1") (VStr "1") (Task.mk 1 1 "axb" (Some "first") false) sample_world).
  - apply (bool_decide_unpack _). vm_compute. exact I.
  - apply (bool_decide_unpack _). vm_compute. exact I.
  - reflexivity.
  - reflexivity.
  - simpl. lia.
  - reflexivity.
  - reflexivity.
Defined.

(** ** Adding, then deleting *)

Lemma filter_fresh_id (l : list Task.t) (row : Task.t) :
  Forall (λ t, Task.id t < Task.id row) l →
  List.filter (λ t, negb (Z.eqb (Task.id t) (Task.id row))) (l ++ [row]) = l.
Proof.
  intros H. rewrite List.filter_app. cbn [List.filter]. rewrite Z.eqb_refl. cbn [negb].
  rewrite app_nil_r. induction H as [| t l Ht _ IH]; [done |]. cbn [List.filter].
  rewrite IH. by rewrite (proj2 (Z.eqb_neq _ _)) by lia.
Qed.

(** X4. [add_task] appends one row for the caller under an id that no row
    has, and keeps the ids unique; [delete_task] on the id it returned
    then removes that row and nothing else, so the table is back to what
    it was, while the id is spent: the sequence does not go back. *)
Theorem add_then_delete_restores
    (params : gmap string pyval) (user_id : pyval) (uid : Z) (T : string)
    (d : option string) (w : World) :
  primary_key w →
  params !! "user_id" = Some user_id → py_int user_id = Ok uid → 0 < uid →
  params !! "title" = Some (VStr T) →
  description_column (get_default params "description" (VStr "")) = Ok d →
  ∃ r w1 w2,
    add_task params w = (Ok r, w1)
    ∧ r !! "task_id" = Some (VInt (tasks_seq w))
    ∧ ¬ (tasks_seq w ∈ List.map Task.id (tasks w))
    ∧ tasks w1 = (tasks w ++ [Task.mk (tasks_seq w) uid T d false])%list
    ∧ primary_key w1
    ∧ delete_task (<["task_id" := VInt (tasks_seq w)]> params) w1
      = (Ok (deleted (Task.mk (tasks_seq w) uid T d false)), w2)
    ∧ tasks w2 = tasks w
    ∧ tasks_seq w2 = tasks_seq w + 1.
Proof.
  intros Hk Hu Hui Hpos Ht Hd.
  pose proof (add_task_ok params user_id uid T d w Hu Hui Hpos Ht Hd) as E1.
  cbv zeta in E1. set (row := Task.mk (tasks_seq w) uid T d false) in *.
  pose proof (acts_for_insert uid (VStr T) (get_default params "description" (VStr ""))
                false w) as (_ & _ & Hk1).
  unfold insert_task in Hk1. cbn [title_column] in Hk1. rewrite Hd in Hk1.
  cbn [snd] in Hk1. fold row in Hk1. destruct (Hk1 Hk) as [Hk1' _].
  destruct Hk as [Hnd Hlt].
  assert (Hfresh : ¬ (tasks_seq w ∈ List.map Task.id (tasks w))).
  { intros Hin. apply list_elem_of_fmap in Hin as (t & Hid & Hin).
    rewrite Forall_forall in Hlt. specialize (Hlt t Hin). lia. }
  eexists _, _, _. split; [exact E1 |].
  split; [reflexivity |]. split; [exact Hfresh |].
  split; [reflexivity |]. split; [exact Hk1' |].
  set (w1 := record (TaskInsert row) _).
  pose proof (delete_task_by_id (<["task_id" := VInt (tasks_seq w)]> params) user_id
                (VInt (tasks_seq w)) uid (tasks_seq w) w1) as E2.
  rewrite lookup_insert_ne in E2 by done. rewrite lookup_insert_eq in E2.
  specialize (E2 Hu Hui Hpos eq_refl eq_refl).
  destruct Hk1' as [Hnd1 _].
  assert (Hrow : row ∈ tasks w1).
  { unfold w1. cbn [tasks record set_tasks]. apply elem_of_app. right.
    apply list_elem_of_singleton. reflexivity. }
  pose proof (find_by_key (tasks w1) row Hnd1 Hrow) as F.
  cbn [Task.id Task.user_id row] in F. rewrite F in E2.
  split; [exact E2 |].
  cbn [delete_row snd tasks tasks_seq record set_tasks w1].
  split; [| reflexivity].
  apply (filter_fresh_id (tasks w) row). exact Hlt.
Qed.

Lemma add_then_delete_restores_witness :
  ∃ r w1 w2,
    add_task (list_to_map [("user_id", VStr "1"); ("title", VStr "Groceries")]) sample_world
    = (Ok r, w1)
    ∧ r !! "task_id" = Some (VInt 4)
    ∧ ¬ (4 ∈ List.map Task.id (tasks sample_world))
    ∧ tasks w1 = (tasks sample_world ++ [Task.mk 4 1 "Groceries" (Some "") false])%list
    ∧ primary_key w1
    ∧ delete_task (<["task_id" := VInt 4]>
                     (list_to_map [("user_id", VStr "1"); ("title", VStr "Groceries")])) w1
      = (Ok (deleted (Task.mk 4 1 "Groceries" (Some "") false)), w2)
    ∧ tasks w2 = tasks sample_world
    ∧ tasks_seq w2 = 5.
Proof.
  apply (add_then_delete_restores
           (list_to_map [("user_id", VStr "1"); ("title", VStr "Groceries")])
           (VStr "1") 1 "Groceries" (Some "") sample_world).
  - split.
    + apply (bool_decide_unpack _). vm_compute. exact I.
    + apply (bool_decide_unpack _). vm_compute. exact I.
  - reflexivity.
  - reflexivity.
  - lia.
  - reflexivity.
  - reflexivity.
Defined.

(** ** What an update keeps *)

Lemma update_row_keeps_shape (t row : Task.t) (w : World) :
  NoDup (List.map Task.id (tasks w)) → t ∈ tasks w →
  Task.id row = Task.id t → Task.user_id row = Task.user_id t →
  Task.completed row = Task.completed t →
  let w' := (update_row row w).2 in
  List.map Task.id (tasks w') = List.map Task.id (tasks w)
  ∧ List.map Task.user_id (tasks w') = List.map Task.user_id (tasks w)
  ∧ List.map Task.completed (tasks w') = List.map Task.completed (tasks w)
  ∧ tasks_seq w' = tasks_seq w.
Proof.
  intros Hnd Hin Hid Hu Hc. cbn [update_row snd tasks tasks_seq record set_tasks].
  rewrite !List.map_map.
  split; [| split; [| split; [| done]]]; apply List.map_ext_in; intros x Hx;
    apply list_elem_of_In in Hx;
    (destruct (Z.eqb_spec (Task.id x) (Task.id row)) as [E |]; [| done]);
    assert (x = t) as -> by (apply (same_id_same_row (tasks w)); congruence);
    done.
Qed.

Lemma assign_keeps_completed (t t' : Task.t) (a b : pyval) :
  assign t a b = Ok t' → Task.completed t' = Task.completed t.
Proof.
  unfold assign. cbn [mbind result_bind mret result_ret].
  destruct (if is_not_none a then _ else _); [| discriminate].
  destruct (if is_not_none b then _ else _); [| discriminate].
  by intros [= <-].
Qed.

Lemma update_found_keeps_shape (uid : Z) (t : Task.t) (a b : pyval) (w : World) :
  NoDup (List.map Task.id (tasks w)) → t ∈ tasks w →
  let w' :=
    (match assign t a b with
     | Ok task =>
         ((_ ← update_row task;
           mret (list_to_map
                   [("task_id", VInt (Task.id task));
                    ("status", VStr "updated");
                    ("title", VStr (Task.title task));
                    ("description", of_option (Task.description task))]))
            : M (gmap string pyval)) (record (TaskSelect uid) w)
     | Raise e => (Raise e, record (TaskSelect uid) w)
     end).2 in
  List.map Task.id (tasks w') = List.map Task.id (tasks w)
  ∧ List.map Task.user_id (tasks w') = List.map Task.user_id (tasks w)
  ∧ List.map Task.completed (tasks w') = List.map Task.completed (tasks w)
  ∧ tasks_seq w' = tasks_seq w.
Proof.
  intros Hnd Hin. destruct (assign t a b) as [task | e] eqn:E; [| done].
  pose proof (assign_keeps_completed _ _ _ _ E) as Hc.
  apply assign_keeps_key in E as [Hid Hu].
  by apply (update_row_keeps_shape t task (record (TaskSelect uid) w)).
Qed.

(** X5. Whatever its parameters, [update_task] adds no row and removes none,
    and changes no id, no owner and no completion flag: all it can change
    is the title and the description of one row. *)
Theorem update_task_keeps_shape (params : gmap string pyval) (w : World) :
  NoDup (List.map Task.id (tasks w)) →
  let w' := (update_task params w).2 in
  List.map Task.id (tasks w') = List.map Task.id (tasks w)
  ∧ List.map Task.user_id (tasks w') = List.map Task.user_id (tasks w)
  ∧ List.map Task.completed (tasks w') = List.map Task.completed (tasks w)
  ∧ tasks_seq w' = tasks_seq w.
Proof.
  intros Hnd. unfold update_task.
  destruct (getitem params "user_id") as [user_id | e];
    [rewrite bind_ok | by rewrite bind_raise].
  destruct (validate_user user_id) as [valid | e];
    [rewrite bind_ok | by rewrite bind_raise].
  destruct valid; cbn [negb]; [| done].
  destruct (reraise_ValueError (py_int user_id) _) as [uid | e];
    [rewrite bind_ok | by rewrite bind_raise].
  set (task_title := py_or (get params "title_to_find") _).
  set (new_title := py_or (get params "new_title") _).
  set (new_description := py_or (get params "new_description") _).
  set (task_id := get params "task_id").
  rewrite bind_step.
  destruct (is_not_none task_id).
  - destruct (reraise_ValueError (py_int task_id) _) as [tid | e];
      [rewrite bind_ok | by rewrite bind_raise].
    unfold select_task_by_id.
    destruct (List.find _ (tasks w)) as [t |] eqn:F; [| done].
    apply find_elem in F as [Hin _]. by apply update_found_keeps_shape.
  - destruct (is_not_none task_title); [| done].
    unfold select_task_by_title.
    destruct (List.find _ (tasks w)) as [t |] eqn:F; [| done].
    apply find_elem in F as [Hin _]. by apply update_found_keeps_shape.
Qed.

Lemma update_task_keeps_shape_witness :
  let w' := (update_task (list_to_map [("user_id", VStr "1"); ("task_id", VInt 3);
                                       ("new_title", VStr "Pay the rent");
                                       ("completed", VBool false)]) sample_world).2 in
  List.map Task.id (tasks w') = List.map Task.id (tasks sample_world)
  ∧ List.map Task.user_id (tasks w') = List.map Task.user_id (tasks sample_world)
  ∧ List.map Task.completed (tasks w') = List.map Task.completed (tasks sample_world)
  ∧ tasks_seq w' = tasks_seq sample_world.
Proof.
  apply (update_task_keeps_shape
           (list_to_map [("user_id", VStr "1"); ("task_id", VInt 3);
                         ("new_title", VStr "Pay the rent");
                         ("completed", VBool false)]) sample_world).
  apply (bool_decide_unpack _). vm_compute. exact I.
Defined.



(** ** The registry and the dispatcher *)

Lemma tool_never_unknown {A : Type} (m : M A) (line : string)
    (g : A → string) (name : string) (w : World) :
  (∀ t, line +:+ t ≠ "Unknown function: " +:+ name) →
  ((a ← m; mret (line +:+ g a)) : M string) w
  ≠ (Ok ("Unknown function: " +:+ name), w).
Proof.
  intros Hp. rewrite bind_step. destruct (m w) as [[a | e] w1]; [| discriminate].
  intros [= H _]. by apply (Hp (g a)).
Qed.

Lemma name_cases (name : string) :
  name = "add_task" ∨ name = "list_tasks" ∨ name = "complete_task"
  ∨ name = "delete_task" ∨ name = "update_task"
  ∨ (String.eqb name "add_task" = false ∧ String.eqb name "list_tasks" = false
     ∧ String.eqb name "complete_task" = false ∧ String.eqb name "delete_task" = false
     ∧ String.eqb name "update_task" = false).
Proof.
  destruct (String.eqb_spec name "add_task"); [tauto |].
  destruct (String.eqb_spec name "list_tasks"); [tauto |].
  destruct (String.eqb_spec name "complete_task"); [tauto |].
  destruct (String.eqb_spec name "delete_task"); [tauto |].
  destruct (String.eqb_spec name "update_task"); tauto.
Qed.

Lemma bind_KeyError {A B : Type} (m : M A) (f : A → M B) (w : World) :
  raised_KeyError (m w).1 = false → (∀ a w', raised_KeyError (f a w').1 = false) →
  raised_KeyError ((m ≫= f) w).1 = false.
Proof.
  intros Hm Hf. rewrite bind_step. destruct (m w) as [[a | e] w1]; [apply Hf | exact Hm].
Qed.

Lemma summary_KeyError {A : Type} (m : M A) (g : A → string) (w : World) :
  raised_KeyError ((a ← m; mret (g a)) w).1 = raised_KeyError (m w).1.
Proof. rewrite bind_step. by destruct (m w) as [[a | e] w1]. Qed.

Lemma reraise_KeyError {A : Type} (r : result A) (msg : string) :
  raised_KeyError r = false → raised_KeyError (reraise_ValueError r msg) = false.
Proof. by destruct r as [| []]. Qed.

Lemma py_int_KeyError (v : pyval) : raised_KeyError (py_int v) = false.
Proof. destruct v as [| s | |]; try done. cbn. by destruct (int_of_str s). Qed.

Lemma validate_user_KeyError (v : pyval) : raised_KeyError (validate_user v) = false.
Proof.
  unfold validate_user. pose proof (py_int_KeyError v).
  by destruct (py_int v) as [| []].
Qed.

Lemma insert_task_KeyError (uid : Z) (t d : pyval) (c : bool) (w : World) :
  raised_KeyError (insert_task uid t d c w).1 = false.
Proof.
  unfold insert_task. destruct t; try done. cbn [title_column].
  destruct d; done.
Qed.

Lemma assign_KeyError (t : Task.t) (a b : pyval) : raised_KeyError (assign t a b) = false.
Proof.
  unfold assign. cbn [mbind result_bind mret result_ret].
  destruct a, b; done.
Qed.

Lemma escaped_KeyError (v : pyval) : raised_KeyError (escaped v) = false.
Proof. by destruct v. Qed.

Lemma add_task_KeyError (params : gmap string pyval) (w : World) :
  raised_KeyError (add_task params w).1
  = negb (all_present ["user_id"; "title"] params).
Proof.
  unfold add_task, all_present, getitem. cbn [List.forallb].
  destruct (params !! "user_id") as [u |]; [| done].
  rewrite bind_ok, (bool_decide_eq_true_2 _ (mk_is_Some _ _ eq_refl)).
  destruct (params !! "title") as [t |]; [| done].
  rewrite bind_ok, (bool_decide_eq_true_2 _ (mk_is_Some _ _ eq_refl)).
  cbn [andb negb]. apply bind_KeyError; [apply validate_user_KeyError | intros valid w1].
  destruct valid; cbn [negb]; [| done].
  apply bind_KeyError; [apply reraise_KeyError, py_int_KeyError | intros uid w2].
  apply bind_KeyError; [apply insert_task_KeyError | done].
Qed.

Lemma list_tasks_KeyError (params : gmap string pyval) (w : World) :
  raised_KeyError (list_tasks params w).1 = negb (all_present ["user_id"] params).
Proof.
  unfold list_tasks, all_present, getitem. cbn [List.forallb].
  destruct (params !! "user_id") as [u |]; [| done].
  rewrite bind_ok, (bool_decide_eq_true_2 _ (mk_is_Some _ _ eq_refl)).
  cbn [andb negb]. apply bind_KeyError; [apply validate_user_KeyError | intros valid w1].
  destruct valid; cbn [negb]; [| done].
  apply bind_KeyError; [apply reraise_KeyError, py_int_KeyError | intros uid w2].
  apply bind_KeyError; done.
Qed.

Lemma complete_task_KeyError (params : gmap string pyval) (w : World) :
  raised_KeyError (complete_task params w).1
  = negb (all_present ["user_id"; "task_id"] params).
Proof.
  unfold complete_task, all_present, getitem. cbn [List.forallb].
  destruct (params !! "user_id") as [u |]; [| done].
  rewrite bind_ok, (bool_decide_eq_true_2 _ (mk_is_Some _ _ eq_refl)).
  destruct (params !! "task_id") as [t |]; [| done].
  rewrite bind_ok, (bool_decide_eq_true_2 _ (mk_is_Some _ _ eq_refl)).
  cbn [andb negb]. apply bind_KeyError; [apply validate_user_KeyError | intros valid w1].
  destruct valid; cbn [negb]; [| done].
  apply bind_KeyError.
  { apply (reraise_KeyError _ _). cbn [mbind result_bind mret result_ret].
    pose proof (py_int_KeyError u). pose proof (py_int_KeyError t).
    destruct (py_int u); [| done]. by destruct (py_int t). }
  intros ids w2. apply bind_KeyError; [done | intros found w3].
  destruct found; [| done]. apply bind_KeyError; done.
Qed.

Lemma delete_task_KeyError (params : gmap string pyval) (w : World) :
  raised_KeyError (delete_task params w).1 = negb (all_present ["user_id"] params).
Proof.
  unfold delete_task, all_present, getitem. cbn [List.forallb].
  destruct (params !! "user_id") as [u |]; [| done].
  rewrite bind_ok, (bool_decide_eq_true_2 _ (mk_is_Some _ _ eq_refl)).
  cbn [andb negb]. apply bind_KeyError; [apply validate_user_KeyError | intros valid w1].
  destruct valid; cbn [negb]; [| done].
  apply bind_KeyError; [apply reraise_KeyError, py_int_KeyError | intros uid w2].
  apply bind_KeyError.
  { destruct (is_not_none (get params "task_id")).
    - apply bind_KeyError; [apply reraise_KeyError, py_int_KeyError | done].
    - destruct (is_not_none _); [| done].
      apply bind_KeyError; [apply escaped_KeyError | done]. }
  intros found w3. destruct found as [t |].
  - apply bind_KeyError; done.
  - by destruct (is_not_none _).
Qed.

Lemma update_task_KeyError (params : gmap string pyval) (w : World) :
  raised_KeyError (update_task params w).1 = negb (all_present ["user_id"] params).
Proof.
  unfold update_task, all_present, getitem. cbn [List.forallb].
  destruct (params !! "user_id") as [u |]; [| done].
  rewrite bind_ok, (bool_decide_eq_true_2 _ (mk_is_Some _ _ eq_refl)).
  cbn [andb negb]. apply bind_KeyError; [apply validate_user_KeyError | intros valid w1].
  destruct valid; cbn [negb]; [| done].
  apply bind_KeyError; [apply reraise_KeyError, py_int_KeyError | intros uid w2].
  apply bind_KeyError.
  { destruct (is_not_none (get params "task_id")).
    - apply bind_KeyError; [apply reraise_KeyError, py_int_KeyError | done].
    - by destruct (is_not_none _). }
  intros found w3. destruct found as [t |].
  - apply bind_KeyError; [apply assign_KeyError | intros task w4].
    apply bind_KeyError; done.
  - by destruct (is_not_none _).
Qed.

Lemma registry_cases (name : string) (arguments : gmap string pyval) (w : World) :
  (name ∈ List.map tool_name get_mcp_tools_definitions →
   run_tool name arguments w ≠ (Ok ("Unknown function: " +:+ name), w)
   ∧ raised_KeyError (run_tool name arguments w).1
     = negb (all_present (required_of name) arguments))
  ∧ (¬ (name ∈ List.map tool_name get_mcp_tools_definitions) →
     run_tool name arguments w = (Ok ("Unknown function: " +:+ name), w)).
Proof.
  destruct (name_cases name) as [-> | [-> | [-> | [-> | [-> | H]]]]].
  - split; [intros _ | intros []; set_solver]. split.
    + apply tool_never_unknown. intros t. discriminate.
    + unfold run_tool. cbn [String.eqb Ascii.eqb Bool.eqb].
      rewrite summary_KeyError. apply add_task_KeyError.
  - split; [intros _ | intros []; set_solver]. split.
    + apply tool_never_unknown. intros t. discriminate.
    + unfold run_tool. cbn [String.eqb Ascii.eqb Bool.eqb].
      rewrite summary_KeyError. apply list_tasks_KeyError.
  - split; [intros _ | intros []; set_solver]. split.
    + apply tool_never_unknown. intros t. discriminate.
    + unfold run_tool. cbn [String.eqb Ascii.eqb Bool.eqb].
      rewrite summary_KeyError. apply complete_task_KeyError.
  - split; [intros _ | intros []; set_solver]. split.
    + apply tool_never_unknown. intros t. discriminate.
    + unfold run_tool. cbn [String.eqb Ascii.eqb Bool.eqb].
      rewrite summary_KeyError. apply delete_task_KeyError.
  - split; [intros _ | intros []; set_solver]. split.
    + apply tool_never_unknown. intros t. discriminate.
    + unfold run_tool. cbn [String.eqb Ascii.eqb Bool.eqb].
      rewrite summary_KeyError. apply update_task_KeyError.
  - destruct H as (H1 & H2 & H3 & H4 & H5). split.
    + intros Hin. exfalso. apply String.eqb_neq in H1, H2, H3, H4, H5.
      cbn [List.map tool_name get_mcp_tools_definitions] in Hin.
      rewrite !elem_of_cons, elem_of_nil in Hin. tauto.
    + intros _. unfold run_tool. by rewrite H1, H2, H3, H4, H5.
Qed.

(** X8. The dispatcher of [execute_tool_calls] has a branch for exactly the
    tools of the registry, and the ["required"] lists of the registry are
    exactly the keys the operations index: a registered tool raises
    [KeyError] if and only if a parameter its schema requires is missing
    from the arguments, and a name outside the registry is answered by
    "Unknown function" without touching the world. *)
Theorem registry_matches_dispatcher
    (name : string) (arguments : gmap string pyval) (w : World) :
  if bool_decide (name ∈ List.map tool_name get_mcp_tools_definitions) then
    run_tool name arguments w ≠ (Ok ("Unknown function: " +:+ name), w)
    ∧ raised_KeyError (run_tool name arguments w).1
      = negb (all_present (required_of name) arguments)
  else run_tool name arguments w = (Ok ("Unknown function: " +:+ name), w).
Proof.
  destruct (registry_cases name arguments w) as [Hin Hout].
  case_bool_decide; [by apply Hin | by apply Hout].
Qed.

(** ** Conversations and their owners *)

Lemma find_owned (cid uid : Z) (l : list Conversation.t) (c : Conversation.t) :
  List.find (λ c, Z.eqb (Conversation.id c) cid && Z.eqb (Conversation.user_id c) uid) l
  = Some c →
  c ∈ l ∧ Conversation.id c = cid ∧ Conversation.user_id c = uid.
Proof.
  intros H. apply List.find_some in H as [Hin Hc].
  apply andb_prop in Hc as [H1 H2].
  apply Z.eqb_eq in H1, H2. split; [by apply list_elem_of_In | done].
Qed.

Lemma find_not_owned (cid uid : Z) (l : list Conversation.t) :
  List.find (λ c, Z.eqb (Conversation.id c) cid && Z.eqb (Conversation.user_id c) uid) l
  = None →
  ∀ x, x ∈ l → Conversation.id x = cid → Conversation.user_id x ≠ uid.
Proof.
  intros H x Hx Hid Hu.
  pose proof (List.find_none _ _ H x (proj1 (list_elem_of_In _ _) Hx)) as Hn.
  cbn in Hn. by rewrite Hid, Hu, !Z.eqb_refl in Hn.
Qed.

Lemma create_conversation_spec (uid : Z) (w : World) :
  let c := Conversation.mk (conversations_seq w) uid (clock w) (clock w + 1) in
  ∃ w', create_conversation uid w = (Ok c, w')
        ∧ conversations w' = (conversations w ++ [c])%list
        ∧ conversations_seq w' = conversations_seq w + 1
        ∧ tasks w' = tasks w ∧ tasks_seq w' = tasks_seq w
        ∧ messages w' = messages w ∧ messages_seq w' = messages_seq w
        ∧ clock w ≤ clock w'
        ∧ completion_requests w' = completion_requests w.
Proof.
  intros c. eexists. split; [reflexivity |].
  cbn [conversations conversations_seq tasks tasks_seq messages messages_seq clock
       record set_conversations set_clock].
  repeat (split; [done || lia |]).
  unfold completion_requests. cbn [trace record set_conversations set_clock].
  rewrite omap_app. cbn. by rewrite app_nil_r.
Qed.

(** What [get_or_create_conversation] hands to the endpoint: a
    conversation of the user, either the stored one the request names or a
    new row at the end of the table. *)
Lemma get_or_create_conversation_spec (conversation_id : option Z) (uid : Z) (w : World) :
  ∃ c w',
    get_or_create_conversation conversation_id uid w = (Ok c, w')
    ∧ Conversation.user_id c = uid
    ∧ (c ∈ conversations w ∧ conversation_id = Some (Conversation.id c)
       ∧ conversations w' = conversations w
       ∧ conversations_seq w' = conversations_seq w
       ∨ Conversation.id c = conversations_seq w
         ∧ conversations w' = (conversations w ++ [c])%list
         ∧ conversations_seq w' = conversations_seq w + 1
         ∧ (∀ cid x, conversation_id = Some cid → cid ≠ 0 → x ∈ conversations w →
                     Conversation.id x = cid → Conversation.user_id x ≠ uid))
    ∧ tasks w' = tasks w ∧ tasks_seq w' = tasks_seq w
    ∧ messages w' = messages w ∧ messages_seq w' = messages_seq w
    ∧ clock w ≤ clock w'
    ∧ completion_requests w' = completion_requests w.
Proof.
  assert (Hnew : ∀ P : Prop, P →
    ∃ c w', create_conversation uid w = (Ok c, w')
      ∧ Conversation.user_id c = uid
      ∧ (c ∈ conversations w ∧ conversation_id = Some (Conversation.id c)
         ∧ conversations w' = conversations w
         ∧ conversations_seq w' = conversations_seq w
         ∨ Conversation.id c = conversations_seq w
           ∧ conversations w' = (conversations w ++ [c])%list
           ∧ conversations_seq w' = conversations_seq w + 1
           ∧ P)
      ∧ tasks w' = tasks w ∧ tasks_seq w' = tasks_seq w
      ∧ messages w' = messages w ∧ messages_seq w' = messages_seq w
      ∧ clock w ≤ clock w'
      ∧ completion_requests w' = completion_requests w).
  { intros P HP. destruct (create_conversation_spec uid w) as (w' & E & H1 & H2 & H).
    eexists _, w'. split; [exact E |]. split; [reflexivity |].
    split; [| exact H]. right. by rewrite H1, H2. }
  unfold get_or_create_conversation.
  destruct conversation_id as [cid |]; [| by apply Hnew].
  destruct (Z.eqb_spec cid 0) as [-> | Hc].
  { apply Hnew. by intros cid x [= <-]. }
  rewrite bind_step. unfold get_conversation.
  destruct (List.find _ (conversations w)) as [c |] eqn:Hf.
  - destruct (find_owned _ _ _ _ Hf) as (Hin & Hid & Hu).
    exists c, (record (ConversationSelect uid) w). split; [reflexivity |].
    split; [done |]. split; [left; by rewrite Hid |].
    repeat (split; [done || reflexivity |]).
    unfold completion_requests. cbn [trace record]. rewrite omap_app. cbn.
    by rewrite app_nil_r.
  - pose proof (find_not_owned _ _ _ Hf) as Hno.
    destruct (create_conversation_spec uid (record (ConversationSelect uid) w))
      as (w' & E & H1 & H2 & H3 & H4 & H5 & H6 & H7 & H8).
    eexists _, w'. split; [exact E |]. split; [reflexivity |].
    split.
    { right. split; [reflexivity |]. split; [exact H1 |]. split; [exact H2 |].
      intros cid' x [= <-] _. apply Hno. }
    repeat (split; [done |]).
    rewrite H8. unfold completion_requests. cbn [trace record]. rewrite omap_app. cbn.
    by rewrite app_nil_r.
Qed.

(** X10. A request never reaches a conversation of somebody else: whatever id
    it carries, [get_or_create_conversation] returns a conversation of the
    user, and it is a stored one only when the id names a conversation the
    user owns; a missing id, [0], an id that is not in the table and the id
    of another user's conversation all open a new conversation, whose id is
    the next of the sequence.  The tasks and the messages are as before. *)
Theorem get_or_create_conversation_owned
    (conversation_id : option Z) (uid : Z) (w : World) :
  ∃ c w',
    get_or_create_conversation conversation_id uid w = (Ok c, w')
    ∧ Conversation.user_id c = uid
    ∧ c ∈ conversations w'
    ∧ (c ∈ conversations w ∧ conversation_id = Some (Conversation.id c)
       ∧ conversations w' = conversations w
       ∨ Conversation.id c = conversations_seq w
         ∧ conversations w' = (conversations w ++ [c])%list
         ∧ (∀ cid x, conversation_id = Some cid → cid ≠ 0 → x ∈ conversations w →
                     Conversation.id x = cid → Conversation.user_id x ≠ uid))
    ∧ tasks w' = tasks w
    ∧ messages w' = messages w.
Proof.
  destruct (get_or_create_conversation_spec conversation_id uid w)
    as (c & w' & E & Hu & Hc & Ht & _ & Hm & _).
  exists c, w'. split; [exact E |]. split; [exact Hu |].
  split; [| split; [| done]].
  - destruct Hc as [(Hin & _ & -> & _) | (_ & -> & _)]; [done |].
    apply elem_of_app. right. apply list_elem_of_here.
  - destruct Hc as [(Hin & Hid & Hcs & _) | (Hid & Hcs & _ & Hno)]; [by left | by right].
Qed.

(** ** Reading a conversation *)

Lemma insert_by_created_at_perm (m : Message.t) (l : list Message.t) :
  insert_by_created_at m l ≡ₚ m :: l.
Proof.
  induction l as [| x l IH]; [done |]. cbn [insert_by_created_at].
  destruct (Z.leb _ _); [done |]. rewrite IH. apply Permutation_swap.
Qed.

Lemma order_by_created_at_perm (l : list Message.t) : order_by_created_at l ≡ₚ l.
Proof.
  induction l as [| m l IH]; [done |].
  unfold order_by_created_at in *. cbn [List.fold_right].
  by rewrite insert_by_created_at_perm, IH.
Qed.

Lemma insert_by_created_at_ascending (m : Message.t) (l : list Message.t) :
  ascending l → ascending (insert_by_created_at m l).
Proof.
  induction l as [| x l IH]; [done |]. intros [Hx Hl]. cbn [insert_by_created_at].
  destruct (Z.leb_spec (Message.created_at m) (Message.created_at x)) as [Hle | Hlt].
  - split; [| done]. constructor; [done |].
    eapply Forall_impl; [exact Hx |]. cbn. intros y Hy. lia.
  - split; [| by apply IH].
    rewrite insert_by_created_at_perm. constructor; [lia | done].
Qed.

Lemma order_by_created_at_ascending (l : list Message.t) :
  ascending (order_by_created_at l).
Proof.
  induction l as [| m l IH]; [done |].
  unfold order_by_created_at in *. cbn [List.fold_right].
  by apply insert_by_created_at_ascending.
Qed.

Lemma ascending_app (l1 l2 : list Message.t) :
  ascending (l1 ++ l2) →
  ascending l1
  ∧ Forall (λ d, Forall (λ k, Message.created_at k ≤ Message.created_at d) l1) l2.
Proof.
  induction l1 as [| m l1 IH]; cbn [app ascending].
  - intros _. split; [done |]. apply Forall_forall. intros d _. constructor.
  - intros [Hm Hl]. destruct (IH Hl) as [Ha Hd].
    apply Forall_app in Hm as [Hm1 Hm2]. split; [done |].
    apply Forall_forall. intros d Hin. constructor.
    + by apply (proj1 (Forall_forall _ _) Hm2).
    + by apply (proj1 (Forall_forall _ _) Hd).
Qed.

Lemma stored_messages_scope (cid uid : Z) (w : World) (m : Message.t) :
  m ∈ stored_messages cid uid w →
  m ∈ messages w ∧ Message.conversation_id m = cid ∧ Message.user_id m = uid.
Proof.
  unfold stored_messages. intros H.
  apply list_elem_of_In, List.filter_In in H as [Hin Hc].
  apply andb_prop in Hc as [H1 H2]. apply Z.eqb_eq in H1, H2.
  split; [by apply list_elem_of_In | done].
Qed.

(** The history of a conversation as the service reads it. *)
Lemma history_split (cid uid : Z) (limit : nat) (w : World) :
  ∃ kept dropped,
    get_conversation_history cid uid limit w
    = (Ok kept, record (MessageSelect cid uid) w)
    ∧ (length kept ≤ limit)%nat
    ∧ (kept ++ dropped)%list ≡ₚ stored_messages cid uid w
    ∧ ascending kept
    ∧ Forall (λ d, Forall (λ k, Message.created_at k ≤ Message.created_at d) kept) dropped
    ∧ ((length (stored_messages cid uid w) ≤ limit)%nat → dropped = []).
Proof.
  set (sorted := order_by_created_at (stored_messages cid uid w)).
  exists (List.firstn limit sorted), (List.skipn limit sorted).
  split; [reflexivity |]. split; [apply List.firstn_le_length |].
  pose proof (order_by_created_at_ascending (stored_messages cid uid w)) as Hasc.
  fold sorted in Hasc. rewrite <- (List.firstn_skipn limit sorted) in Hasc.
  apply ascending_app in Hasc as [Ha Hd].
  split; [| split; [done | split; [done |]]].
  - rewrite List.firstn_skipn. apply order_by_created_at_perm.
  - intros Hlen. apply List.skipn_all2.
    unfold sorted. by rewrite (Permutation_length (order_by_created_at_perm _)).
Qed.

(** X11. [get_conversation_history] is a read of one conversation of one user:
    it returns at most [limit] messages, all stored for that conversation
    and that user, oldest first; when more are stored it keeps the oldest
    and drops the latest, and it returns all of them when they fit.  The
    tables are as before. *)
Theorem conversation_history_keeps_oldest (cid uid : Z) (limit : nat) (w : World) :
  ∃ kept dropped,
    get_conversation_history cid uid limit w
    = (Ok kept, record (MessageSelect cid uid) w)
    ∧ (length kept ≤ limit)%nat
    ∧ (kept ++ dropped)%list ≡ₚ stored_messages cid uid w
    ∧ Forall (λ m, m ∈ messages w ∧ Message.conversation_id m = cid
                   ∧ Message.user_id m = uid) kept
    ∧ ascending kept
    ∧ Forall (λ d, Forall (λ k, Message.created_at k ≤ Message.created_at d) kept) dropped
    ∧ ((length (stored_messages cid uid w) ≤ limit)%nat → dropped = []).
Proof.
  destruct (history_split cid uid limit w) as (kept & dropped & E & Hl & Hp & Ha & Hd & He).
  exists kept, dropped. split; [exact E |]. split; [exact Hl |]. split; [exact Hp |].
  split; [| done]. apply Forall_forall. intros m Hm.
  apply stored_messages_scope. rewrite <- Hp. apply elem_of_app. by left.
Qed.

(** ** The history route *)

(** X12. The history route answers for the caller's own conversation only: a
    path that names another user is refused with 403 before the store is
    read, a conversation that does not exist and a conversation of another
    user are both answered by the same 404 without a read of the messages,
    and otherwise the reply carries at most 50 messages, all of that
    conversation and of the caller, oldest first.  The route never writes. *)
Theorem history_route_is_scoped (user_id : string) (cid : Z) (u : User.t) (w : World) :
  let out := ChatApi.get_conversation_history user_id cid u w in
  forget_trace out.2 = forget_trace w
  ∧ match out.1 with
    | Ok reply =>
        user_id = str_int (User.id u)
        ∧ (∃ c, c ∈ conversations w ∧ Conversation.id c = cid
                ∧ Conversation.user_id c = User.id u)
        ∧ ChatHistoryResponse.conversation_id reply = cid
        ∧ (length (ChatHistoryResponse.messages reply) ≤ 50)%nat
        ∧ Forall (λ m, m ∈ messages w ∧ Message.conversation_id m = cid
                       ∧ Message.user_id m = User.id u)
                 (ChatHistoryResponse.messages reply)
        ∧ ascending (ChatHistoryResponse.messages reply)
    | Raise e =>
        e = HTTPException 403 "Access denied"
        ∧ user_id ≠ str_int (User.id u) ∧ out.2 = w
        ∨ e = HTTPException 404 "Conversation not found"
          ∧ user_id = str_int (User.id u)
          ∧ (∀ x, x ∈ conversations w → Conversation.id x = cid →
                  Conversation.user_id x ≠ User.id u)
          ∧ out.2 = record (ConversationSelect (User.id u)) w
    end.
Proof.
  unfold ChatApi.get_conversation_history.
  destruct (String.eqb_spec (str_int (User.id u)) user_id) as [<- | Hne]; cbn [negb].
  2: { cbn. split; [done |]. left. split; [done |]. split; [congruence | done]. }
  unfold try_except. rewrite bind_step. unfold get_conversation.
  destruct (List.find _ (conversations w)) as [c |] eqn:Hf.
  - destruct (history_split cid (User.id u) 50 (record (ConversationSelect (User.id u)) w))
      as (kept & dropped & E & Hl & Hp & Ha & _).
    rewrite bind_step, E. cbn [fst snd mret M_ret ChatHistoryResponse.messages
                               ChatHistoryResponse.conversation_id].
    split; [done |]. split; [done |].
    destruct (find_owned _ _ _ _ Hf) as (Hin & Hid & Hu).
    split; [by exists c |]. split; [done |]. split; [done |]. split; [| done].
    apply Forall_forall. intros m Hm.
    apply (stored_messages_scope cid (User.id u) (record (ConversationSelect (User.id u)) w)).
    rewrite <- Hp. apply elem_of_app. by left.
  - cbn. split; [done |]. right. split; [done |]. split; [done |].
    split; [| done]. by apply find_not_owned.
Qed.

(** ** One turn of the chat, step by step *)

Lemma add_message_spec (cid uid : Z) (role content : string) (w : World) :
  let m := Message.mk (messages_seq w) uid cid role content (clock w) in
  ∃ w', add_message cid uid role content w = (Ok m, w')
        ∧ messages w' = (messages w ++ [m])%list
        ∧ messages_seq w' = messages_seq w + 1
        ∧ clock w' = clock w + 1
        ∧ tasks w' = tasks w ∧ tasks_seq w' = tasks_seq w
        ∧ conversations w' = conversations w
        ∧ conversations_seq w' = conversations_seq w.
Proof. intros m. eexists. split; [reflexivity |]. done. Qed.

Lemma update_conversation_timestamp_spec (cid : Z) (w : World) :
  ∃ w', update_conversation_timestamp cid w = (Ok tt, w')
        ∧ (conversations w' = conversations w
           ∨ conversations w'
             = List.map (λ c, if Z.eqb (Conversation.id c) cid
                              then Conversation.mk (Conversation.id c) (Conversation.user_id c)
                                     (Conversation.created_at c) (clock w)
                              else c)
                        (conversations w))
        ∧ conversations_seq w' = conversations_seq w
        ∧ messages w' = messages w ∧ messages_seq w' = messages_seq w
        ∧ tasks w' = tasks w ∧ tasks_seq w' = tasks_seq w.
Proof.
  unfold update_conversation_timestamp.
  destruct (List.find _ (conversations w)); eexists; (split; [reflexivity |]).
  - split; [by right | done].
  - split; [by left | done].
Qed.

(** The turn past the authorization gate: the conversation, the stored
    message, the request to the model, the calls and the reply. *)
Lemma chat_endpoint_steps
    (api : list turn → api_reply) (chat_request : ChatRequest) (u : User.t) (w : World) :
  ∃ c w1 history r content w5,
    get_or_create_conversation (conversation_id chat_request) (User.id u) w = (Ok c, w1)
    ∧ (let w2 := (add_message (Conversation.id c) (User.id u) "user"
                    (message chat_request) w1).2 in
       let w3 := record (MessageSelect (Conversation.id c) (User.id u)) w2 in
       let w4 := record (Completion (history ++ [("user", message chat_request)])%list) w3 in
       process_message api (str_int (User.id u)) (message chat_request) history w3
       = (Ok r, w4)
       ∧ match r with
         | AiToolCalls calls _ =>
             ∃ rs, tool_call_results calls u w4 = (Ok rs, w5)
                   ∧ content = "I've processed your request. " +:+ join "; " rs
                   ∧ acts_for (User.id u) w4 w5
         | AiMessage s | AiError s => content = s ∧ w5 = w4
         end)
    ∧ chat_endpoint api (str_int (User.id u)) chat_request u w
      = (Ok {| response_conversation_id := Conversation.id c;
               response := content;
               response_tool_calls := [] |},
         (update_conversation_timestamp (Conversation.id c)
            (add_message (Conversation.id c) (User.id u) "assistant" content w5).2).2).
Proof.
  destruct (get_or_create_conversation_spec (conversation_id chat_request) (User.id u) w)
    as (c & w1 & E1 & _).
  set (w2 := (add_message (Conversation.id c) (User.id u) "user"
                (message chat_request) w1).2).
  set (w3 := record (MessageSelect (Conversation.id c) (User.id u)) w2).
  set (history :=
         List.removelast
           (List.map (λ msg, (Message.role msg, Message.content msg))
              (List.firstn 50
                 (order_by_created_at
                    (List.filter (λ m, Z.eqb (Message.conversation_id m) (Conversation.id c) &&
                                       Z.eqb (Message.user_id m) (User.id u))
                                 (messages w2)))))).
  destruct (process_message_trace api (str_int (User.id u)) (message chat_request)
              history w3) as [r Er].
  match type of Er with _ = (_, ?W) => set (w4 := W) in * end.
  assert (Hr : ∃ content w5,
    match r with
    | AiToolCalls calls _ =>
        ∃ rs, tool_call_results calls u w4 = (Ok rs, w5)
              ∧ content = "I've processed your request. " +:+ join "; " rs
              ∧ acts_for (User.id u) w4 w5
    | AiMessage s | AiError s => content = s ∧ w5 = w4
    end).
  { destruct r as [calls s | s | s]; [| by eexists _, _ ..].
    destruct (tool_call_results_spec calls u w4) as (rs & w5 & E & _ & _ & Ha).
    exists ("I've processed your request. " +:+ join "; " rs), w5. by exists rs. }
  destruct Hr as (content & w5 & Hr).
  exists c, w1, history, r, content, w5. split; [exact E1 |].
  split; [by split |].
  unfold chat_endpoint. rewrite String.eqb_refl. cbn [negb]. unfold try_except.
  rewrite bind_step, E1, bind_step.
  change (add_message (Conversation.id c) (User.id u) "user" (message chat_request) w1)
    with (Ok (Message.mk (messages_seq w1) (User.id u) (Conversation.id c) "user"
                (message chat_request) (clock w1)), w2).
  cbn iota. rewrite bind_step.
  change (get_conversation_history (Conversation.id c) (User.id u) 50 w2)
    with (Ok (List.firstn 50
                (order_by_created_at
                   (List.filter (λ m, Z.eqb (Message.conversation_id m) (Conversation.id c) &&
                                      Z.eqb (Message.user_id m) (User.id u))
                                (messages w2)))), w3).
  cbn iota. fold history. rewrite bind_step, Er, bind_step.
  destruct r as [calls s | s | s].
  - destruct Hr as (rs & E & -> & _).
    rewrite bind_step. unfold execute_tool_calls. rewrite bind_step, E.
    cbn [mret M_ret]. rewrite bind_step.
    destruct (add_message_spec (Conversation.id c) (User.id u) "assistant"
                ("I've processed your request. " +:+ join "; " rs) w5) as (w6 & E6 & _).
    rewrite E6. cbn [snd]. rewrite bind_step.
    destruct (update_conversation_timestamp_spec (Conversation.id c) w6) as (w7 & E7 & _).
    by rewrite E7.
  - destruct Hr as [-> ->]. cbn iota.
    cbn [mret M_ret]. rewrite bind_step.
    destruct (add_message_spec (Conversation.id c) (User.id u) "assistant" s w4)
      as (w6 & E6 & _).
    rewrite E6. cbn [snd]. rewrite bind_step.
    destruct (update_conversation_timestamp_spec (Conversation.id c) w6) as (w7 & E7 & _).
    by rewrite E7.
  - destruct Hr as [-> ->]. cbn iota.
    cbn [mret M_ret]. rewrite bind_step.
    destruct (add_message_spec (Conversation.id c) (User.id u) "assistant" s w4)
      as (w6 & E6 & _).
    rewrite E6. cbn [snd]. rewrite bind_step.
    destruct (update_conversation_timestamp_spec (Conversation.id c) w6) as (w7 & E7 & _).
    by rewrite E7.
Qed.

(** ** What a turn stores *)

Lemma chat_endpoint_tail (cid uid : Z) (content : string) (w5 : World) :
  let w' := (update_conversation_timestamp cid
               (add_message cid uid "assistant" content w5).2).2 in
  messages w'
  = (messages w5 ++ [Message.mk (messages_seq w5) uid cid "assistant" content (clock w5)])%list
  ∧ messages_seq w' = messages_seq w5 + 1
  ∧ tasks w' = tasks w5 ∧ tasks_seq w' = tasks_seq w5
  ∧ conversations_seq w' = conversations_seq w5
  ∧ (conversations w' = conversations w5
     ∨ conversations w'
       = List.map (λ c, if Z.eqb (Conversation.id c) cid
                        then Conversation.mk (Conversation.id c) (Conversation.user_id c)
                               (Conversation.created_at c) (clock w5 + 1)
                        else c)
                  (conversations w5)).
Proof.
  intros w'.
  destruct (add_message_spec cid uid "assistant" content w5)
    as (w6 & E6 & Hm & Hs & Hc & Ht & Hts & Hcv & Hcs).
  destruct (update_conversation_timestamp_spec cid w6)
    as (w7 & E7 & Hcv' & Hcs' & Hm' & Hs' & Ht' & Hts').
  subst w'. rewrite E6. cbn [snd]. rewrite E7. cbn [snd].
  rewrite Hm', Hm, Hs', Hs, Ht', Ht, Hts', Hts, Hcs', Hcs.
  repeat (split; [done |]).
  destruct Hcv' as [-> | ->]; [left | right]; by rewrite Hcv, ?Hc.
Qed.


(** The world after a turn, table by table. *)
Lemma chat_endpoint_effect
    (api : list turn → api_reply) (chat_request : ChatRequest) (u : User.t) (w : World) :
  ∃ c w1 history r content w3 w4 w5 w',
    get_or_create_conversation (conversation_id chat_request) (User.id u) w = (Ok c, w1)
    ∧ process_message api (str_int (User.id u)) (message chat_request) history w3
      = (Ok r, w4)
    ∧ match r with
      | AiToolCalls calls _ =>
          ∃ rs, tool_call_results calls u w4 = (Ok rs, w5)
                ∧ content = "I've processed your request. " +:+ join "; " rs
                ∧ acts_for (User.id u) w4 w5
      | AiMessage s | AiError s => content = s ∧ w5 = w4
      end
    ∧ chat_endpoint api (str_int (User.id u)) chat_request u w
      = (Ok {| response_conversation_id := Conversation.id c;
               response := content;
               response_tool_calls := [] |}, w')
    ∧ (tasks w4 = tasks w ∧ tasks_seq w4 = tasks_seq w)
    ∧ (tasks w' = tasks w5 ∧ tasks_seq w' = tasks_seq w5)
    ∧ messages w'
      = (messages w
         ++ [Message.mk (messages_seq w) (User.id u) (Conversation.id c)
               "user" (message chat_request) (clock w1);
             Message.mk (messages_seq w + 1) (User.id u) (Conversation.id c)
               "assistant" content (clock w1 + 1)])%list
    ∧ messages_seq w' = messages_seq w + 2
    ∧ (conversations w' = conversations w1
       ∨ conversations w'
         = List.map (λ x, if Z.eqb (Conversation.id x) (Conversation.id c)
                          then Conversation.mk (Conversation.id x) (Conversation.user_id x)
                                 (Conversation.created_at x) (clock w1 + 2)
                          else x)
                    (conversations w1)).
Proof.
  destruct (chat_endpoint_steps api chat_request u w)
    as (c & w1 & history & r & content & w5 & E1 & [Er Hr] & E).
  destruct (get_or_create_conversation_spec (conversation_id chat_request) (User.id u) w)
    as (c0 & w0 & E0 & _ & _ & Ht1 & Hts1 & Hm1 & Hs1 & _).
  rewrite E1 in E0. injection E0 as <- <-.
  destruct (add_message_spec (Conversation.id c) (User.id u) "user"
              (message chat_request) w1)
    as (w2 & E2 & Hm2 & Hs2 & Hc2 & Ht2 & Hts2 & Hcv2 & _).
  rewrite E2 in Er, Hr. cbn [snd] in Er, Hr.
  match type of Er with _ ?W3 = (_, ?W4) => set (w3 := W3) in *; set (w4 := W4) in * end.
  assert (H5 : messages w5 = messages w2 ∧ messages_seq w5 = messages_seq w2
               ∧ clock w5 = clock w2 ∧ conversations w5 = conversations w2).
  { destruct r as [calls s | s | s].
    - destruct Hr as (rs & _ & _ & (_ & (H1 & _ & H2 & H3 & H4) & _)). done.
    - by destruct Hr as [_ ->].
    - by destruct Hr as [_ ->]. }
  destruct H5 as (Hm5 & Hs5 & Hc5 & Hcv5).
  destruct (chat_endpoint_tail (Conversation.id c) (User.id u) content w5)
    as (Hm & Hs & Ht & Hts & _ & Hcv).
  exists c, w1, history, r, content, w3, w4, w5. eexists.
  split; [exact E1 |]. split; [exact Er |]. split; [exact Hr |]. split; [exact E |].
  split; [by rewrite <- Ht1, <- Hts1, <- Ht2, <- Hts2 |].
  split; [done |]. split; [| split].
  - rewrite Hm, Hm5, Hs5, Hc5, Hm2, Hs2, Hc2, Hm1, Hs1. by rewrite <- app_assoc.
  - rewrite Hs, Hs5, Hs2, Hs1. lia.
  - rewrite Hcv5, Hcv2, Hc5, Hc2 in Hcv.
    by replace (clock w1 + 1 + 1) with (clock w1 + 2) in Hcv by lia.
Qed.


(** ** A turn and the other users *)

Lemma same_key_same_conversation (l : list Conversation.t) (x y : Conversation.t) :
  NoDup (List.map Conversation.id l) → x ∈ l → y ∈ l →
  Conversation.id x = Conversation.id y → x = y.
Proof.
  induction l as [| a l IH]; [by intros _ H%elem_of_nil |].
  cbn [List.map]. intros Hnd Hx Hy Hid.
  apply NoDup_cons in Hnd as [Ha Hnd].
  apply elem_of_cons in Hx as [-> | Hx]; apply elem_of_cons in Hy as [-> | Hy].
  - done.
  - exfalso. apply Ha. rewrite Hid. apply list_elem_of_fmap. by exists y.
  - exfalso. apply Ha. rewrite <- Hid. apply list_elem_of_fmap. by exists x.
  - by apply IH.
Qed.

Lemma foreign_touch (cid uid now : Z) (l : list Conversation.t) :
  (∀ x, x ∈ l → Conversation.id x = cid → Conversation.user_id x = uid) →
  List.filter (λ c, negb (Z.eqb (Conversation.user_id c) uid))
    (List.map (λ c, if Z.eqb (Conversation.id c) cid
                    then Conversation.mk (Conversation.id c) (Conversation.user_id c)
                           (Conversation.created_at c) now
                    else c) l)
  = List.filter (λ c, negb (Z.eqb (Conversation.user_id c) uid)) l.
Proof.
  induction l as [| a l IH]; [done |]. intros H. cbn [List.map List.filter].
  rewrite IH by (intros x Hx; apply H; by apply list_elem_of_further).
  destruct (Z.eqb_spec (Conversation.id a) cid) as [Hid | Hid]; [| done].
  cbn [Conversation.user_id]. rewrite (H a (list_elem_of_here _ _) Hid).
  by rewrite Z.eqb_refl.
Qed.

(** X14. A turn touches rows of the caller only.  With the primary keys of the
    task and the conversation tables in force, the tasks, the
    conversations and the messages of every other user are after the turn
    what they were before it, whatever path, conversation id and message
    the request carries and whatever the model answers. *)
Theorem chat_turn_keeps_foreign_rows
    (api : list turn → api_reply) (user_id : string) (chat_request : ChatRequest)
    (u : User.t) (w : World) :
  primary_key w → conversation_key w →
  let w' := (chat_endpoint api user_id chat_request u w).2 in
  foreign_rows (User.id u) w' = foreign_rows (User.id u) w
  ∧ foreign_conversations (User.id u) w' = foreign_conversations (User.id u) w
  ∧ foreign_messages (User.id u) w' = foreign_messages (User.id u) w.
Proof.
  intros Hpk [Hnd Hlt].
  destruct (String.eqb_spec (str_int (User.id u)) user_id) as [<- | Hne].
  2: { unfold chat_endpoint. apply String.eqb_neq in Hne. by rewrite Hne. }
  destruct (chat_endpoint_effect api chat_request u w)
    as (c & w1 & history & r & content & w3 & w4 & w5 & w'
        & E1 & _ & Hr & E & [Ht4 Hts4] & [Ht Hts] & Hm & _ & Hcv).
  destruct (get_or_create_conversation_spec (conversation_id chat_request) (User.id u) w)
    as (c0 & w0 & E0 & Hu & Hc & _).
  rewrite E1 in E0. injection E0 as <- <-.
  rewrite E. cbn [snd]. split; [| split].
  - unfold foreign_rows. rewrite Ht.
    assert (Hpk4 : primary_key w4) by (unfold primary_key; by rewrite Ht4, Hts4).
    destruct r as [calls s | s | s].
    + destruct Hr as (rs & _ & _ & (_ & _ & Hk)).
      destruct (Hk Hpk4) as [_ Hf]. unfold foreign_rows in Hf. by rewrite Hf, Ht4.
    + destruct Hr as [_ ->]. by rewrite Ht4.
    + destruct Hr as [_ ->]. by rewrite Ht4.
  - unfold foreign_conversations.
    assert (H1 : List.filter (λ c, negb (Z.eqb (Conversation.user_id c) (User.id u)))
                   (conversations w1)
                 = List.filter (λ c, negb (Z.eqb (Conversation.user_id c) (User.id u)))
                     (conversations w)).
    { destruct Hc as [(_ & _ & -> & _) | (_ & -> & _)]; [done |].
      rewrite List.filter_app. cbn [List.filter]. rewrite Hu, Z.eqb_refl. cbn [negb].
      by rewrite app_nil_r. }
    destruct Hcv as [-> | ->]; [exact H1 |].
    rewrite foreign_touch; [exact H1 |].
    intros x Hx Hid.
    destruct Hc as [(Hin & _ & Hcs & _) | (Hnew & Hcs & _)]; rewrite Hcs in Hx.
    + by rewrite (same_key_same_conversation _ x c Hnd Hx Hin Hid).
    + apply elem_of_app in Hx as [Hx | Hx].
      * pose proof (proj1 (Forall_forall _ _) Hlt x Hx) as Hlt'. cbn in Hlt'. lia.
      * apply list_elem_of_singleton in Hx. by subst x.
  - unfold foreign_messages. rewrite Hm, List.filter_app.
    cbn [List.filter Message.user_id]. rewrite Z.eqb_refl. cbn [negb].
    by rewrite app_nil_r.
Qed.

Lemma chat_turn_keeps_foreign_rows_witness :
  let w' := (chat_endpoint api_add_groceries "1"
               {| message := "Add groceries"; conversation_id := Some 2 |}
               alice short_conversation).2 in
  foreign_rows 1 w' = foreign_rows 1 short_conversation
  ∧ foreign_conversations 1 w' = foreign_conversations 1 short_conversation
  ∧ foreign_messages 1 w' = foreign_messages 1 short_conversation.
Proof.
  apply (chat_turn_keeps_foreign_rows api_add_groceries "1"
           {| message := "Add groceries"; conversation_id := Some 2 |}
           alice short_conversation).
  - split; apply (bool_decide_unpack _); vm_compute; exact I.
  - split; apply (bool_decide_unpack _); vm_compute; exact I.
Defined.

(** ** Answers that ask for no tool *)

Lemma decode_undecodable (calls : list raw_tool_call) :
  List.existsb undecodable calls = true → ∃ e, decode_tool_calls calls = Raise e.
Proof.
  induction calls as [| c calls IH]; [done |]. cbn [List.existsb decode_tool_calls].
  unfold undecodable at 1. destruct (raw_arguments c) as [args | e]; [| by exists e].
  cbn [orb]. intros H. destruct (IH H) as [e He]. exists e.
  cbn [mbind result_bind]. by rewrite He.
Qed.

Lemma process_message_undecodable
    (api : list turn → api_reply) (user_id message : string) (history : list turn)
    (content : option string) (calls : list raw_tool_call) (w : World) :
  api (history ++ [("user", message)])%list = ApiChoice content calls →
  List.existsb undecodable calls = true →
  (process_message api user_id message history w).1 = Ok (AiError apology).
Proof.
  intros Hapi Hun. unfold process_message, try_except, run_conversation.
  rewrite bind_step. cbn [log_event]. unfold pure. rewrite Hapi.
  destruct calls as [| c calls]; [done |].
  destruct (decode_undecodable _ Hun) as [e He].
  unfold _process_response. rewrite He. reflexivity.
Qed.

Lemma process_message_plain
    (api : list turn → api_reply) (user_id message : string) (history : list turn)
    (content : option string) (w : World) :
  api (history ++ [("user", message)])%list = ApiChoice content [] →
  (process_message api user_id message history w).1 = Ok (AiMessage (default "" content)).
Proof.
  intros Hapi. unfold process_message, try_except, run_conversation.
  rewrite bind_step. cbn [log_event]. unfold pure. by rewrite Hapi.
Qed.

(** X16. Decoding is all or nothing.  When the argument text of one call of the
    model's answer is not valid JSON, none of the calls of that answer is
    run, also not those whose arguments are fine: the turn is answered by
    the apology and the task table is as before. *)
Theorem undecodable_call_cancels_the_batch
    (api : list turn → api_reply) (chat_request : ChatRequest) (u : User.t) (w : World) :
  (∀ messages, ∃ content calls,
     api messages = ApiChoice content calls ∧ List.existsb undecodable calls = true) →
  ∃ reply w',
    chat_endpoint api (str_int (User.id u)) chat_request u w = (Ok reply, w')
    ∧ response reply = apology
    ∧ tasks w' = tasks w
    ∧ tasks_seq w' = tasks_seq w.
Proof.
  intros Hapi.
  destruct (chat_endpoint_effect api chat_request u w)
    as (c & w1 & history & r & content & w3 & w4 & w5 & w'
        & _ & Er & Hr & E & [Ht4 Hts4] & [Ht Hts] & _).
  destruct (Hapi (history ++ [("user", message chat_request)])%list)
    as (content' & calls & Ha & Hun).
  pose proof (process_message_undecodable api (str_int (User.id u)) (message chat_request)
                history content' calls w3 Ha Hun) as Hp.
  rewrite Er in Hp. cbn [fst] in Hp. injection Hp as ->.
  destruct Hr as [-> ->].
  eexists _, w'. split; [exact E |]. split; [reflexivity |]. split; congruence.
Qed.

Lemma undecodable_call_cancels_the_batch_witness :
  ∃ reply w',
    chat_endpoint api_broken_arguments "1"
      {| message := "Add groceries and tick them off"; conversation_id := None |}
      alice sample_world = (Ok reply, w')
    ∧ response reply = apology
    ∧ tasks w' = tasks sample_world
    ∧ tasks_seq w' = tasks_seq sample_world.
Proof.
  apply (undecodable_call_cancels_the_batch api_broken_arguments
           {| message := "Add groceries and tick them off"; conversation_id := None |}
           alice sample_world).
  intros messages. eexists _, _. split; reflexivity.
Defined.

(** X17. An answer in words is the reply.  When the model returns content and
    no tool call, the response carries that content unchanged, the empty
    string when there is none, and the task table is as before. *)
Theorem plain_answer_is_the_reply
    (api : list turn → api_reply) (chat_request : ChatRequest) (u : User.t) (w : World)
    (content : option string) :
  (∀ messages, api messages = ApiChoice content []) →
  ∃ reply w',
    chat_endpoint api (str_int (User.id u)) chat_request u w = (Ok reply, w')
    ∧ response reply = default "" content
    ∧ tasks w' = tasks w
    ∧ tasks_seq w' = tasks_seq w.
Proof.
  intros Hapi.
  destruct (chat_endpoint_effect api chat_request u w)
    as (c & w1 & history & r & reply & w3 & w4 & w5 & w'
        & _ & Er & Hr & E & [Ht4 Hts4] & [Ht Hts] & _).
  pose proof (process_message_plain api (str_int (User.id u)) (message chat_request)
                history content w3 (Hapi _)) as Hp.
  rewrite Er in Hp. cbn [fst] in Hp. injection Hp as ->.
  destruct Hr as [-> ->].
  eexists _, w'. split; [exact E |]. split; [reflexivity |]. split; congruence.
Qed.

Lemma plain_answer_is_the_reply_witness :
  ∃ reply w',
    chat_endpoint api_plain_answer "1"
      {| message := "What is on my list?"; conversation_id := None |}
      alice sample_world = (Ok reply, w')
    ∧ response reply = "You have no tasks yet."
    ∧ tasks w' = tasks sample_world
    ∧ tasks_seq w' = tasks_seq sample_world.
Proof.
  apply (plain_answer_is_the_reply api_plain_answer
           {| message := "What is on my list?"; conversation_id := None |}
           alice sample_world (Some "You have no tasks yet.")).
  intros messages. reflexivity.
Defined.

(** ** Answers that ask for tools *)



